(** * Northwind dashboard: the query executor, the three aggregation queries
    and the filter binding of [pages/Dashboard_northwin.py].

    The page talks to three outside parties: the SQLite engine (through
    [sqlite3] and [pandas.read_sql_query]), the pandas table type and the
    streamlit widgets.  Each is modelled by what the page uses of it:

    - the engine by the relational meaning of the three fixed statements
      (joins as nested loops, GROUP BY, aggregates, ORDER BY, LIMIT) over a
      typed store, with the engine's numeric domain and its order of rows
      of equal metric kept abstract;
    - pandas by a table of named columns and rows of cells;
    - streamlit by a log of what was rendered and a store of widget values.

    Python's exceptions and the mutable world are threaded by a small
    state-and-exception monad.  The module's top-level calls
    ([st.set_page_config] and the style sheet) run before [main] and touch
    nothing [main] reads; they are left out. *)

From Stdlib Require Import List String ZArith Bool Lia.
From Stdlib Require Import Sorting.Sorted Sorting.Permutation.
Import ListNotations.

Set Implicit Arguments.

(* ================================================================== *)
(** * The engine's numbers *)

(** SQLite evaluates [*], [-], [SUM] and [ROUND] on its own numeric values
    (64-bit integers and IEEE doubles).  The page never computes with them
    itself, so the numeric domain is a parameter: the operations the three
    statements use, the order that ORDER BY sorts by, and an equality test.
    The order is total on the values a column can hold (SQLite stores no
    NaN). *)
Class SqlNum : Type := {
  num : Type;
  num_zero : num;
  num_add : num -> num -> num;
  num_sub : num -> num -> num;
  num_mul : num -> num -> num;
  sql_round : nat -> num -> num;
  num_leb : num -> num -> bool;
  num_eqb : num -> num -> bool;
  num_leb_total : forall a b, num_leb a b = true \/ num_leb b a = true;
  num_leb_trans : forall a b c,
      num_leb a b = true -> num_leb b c = true -> num_leb a c = true;
  num_eqb_eq : forall a b, num_eqb a b = true <-> a = b
}.

(* ================================================================== *)
(** * Relational operators *)

Section Relational.

Variables (A B K : Type).

(** [FROM l JOIN r ON on]: a nested loop, outer table first. *)
Definition join (l : list A) (r : list B) (on : A -> B -> bool) : list (A * B) :=
  flat_map (fun a => map (pair a) (filter (on a) r)) l.

Variable eqb : K -> K -> bool.

(** The distinct values of a list, each at its first occurrence.  This is
    SQL's DISTINCT, the key set of GROUP BY and pandas' [unique()]. *)
Fixpoint distinct (l : list K) : list K :=
  match l with
  | [] => []
  | x :: t => x :: filter (fun y => negb (eqb x y)) (distinct t)
  end.

(** [GROUP BY key]: one group per distinct key, holding the rows of that key
    in their input order. *)
Definition group_by (key : A -> K) (rows : list A) : list (K * list A) :=
  map (fun k => (k, filter (fun r => eqb k (key r)) rows))
      (distinct (map key rows)).

(** [COUNT(DISTINCT e)] over the rows of a group. *)
Definition count_distinct (e : A -> K) (rows : list A) : Z :=
  Z.of_nat (List.length (distinct (map e rows))).

End Relational.

Section Ordering.

Context {N : SqlNum}.
Variable R : Type.
Variable metric : R -> num.

(** [SUM(e)] over the rows of a group: the accumulator starts at zero and
    takes the rows in order. *)
Definition sql_sum (A : Type) (e : A -> num) (rows : list A) : num :=
  fold_left (fun acc r => num_add acc (e r)) rows num_zero.

(** [a] may stand before [b] under ORDER BY metric DESC. *)
Definition desc (a b : R) : Prop := num_leb (metric b) (metric a) = true.

Fixpoint insert_desc (x : R) (l : list R) : list R :=
  match l with
  | [] => [x]
  | y :: t => if num_leb (metric y) (metric x) then x :: y :: t
              else y :: insert_desc x t
  end.

(** One way to order by a metric, descending: a stable insertion sort, under
    which rows of equal metric keep their input order. *)
Definition stable_order_by_desc (l : list R) : list R :=
  fold_right insert_desc [] l.

(** [LIMIT n]. *)
Definition limit (n : nat) (l : list R) : list R := firstn n l.

End Ordering.

Section StableOrderFacts.

Context {N : SqlNum}.
Variable R : Type.
Variable metric : R -> num.

Lemma insert_desc_perm (x : R) (l : list R) :
  Permutation (insert_desc metric x l) (x :: l).
Proof.
  induction l as [|y t IH]; simpl; [reflexivity|].
  destruct (num_leb (metric y) (metric x)); [reflexivity|].
  rewrite IH. apply perm_swap.
Qed.

Lemma stable_order_by_desc_perm (l : list R) :
  Permutation (stable_order_by_desc metric l) l.
Proof.
  induction l as [|x t IH]; simpl; [reflexivity|].
  rewrite insert_desc_perm. now constructor.
Qed.

Lemma insert_desc_sorted (x : R) (l : list R) :
  StronglySorted (desc metric) l ->
  StronglySorted (desc metric) (insert_desc metric x l).
Proof.
  induction 1 as [|y t Ht IH Hy]; simpl.
  - repeat constructor.
  - destruct (num_leb (metric y) (metric x)) eqn:E.
    + constructor; [now constructor|].
      constructor; [exact E|].
      eapply Forall_impl; [|exact Hy].
      intros z Hz. unfold desc in *. eapply num_leb_trans; eassumption.
    + constructor; [assumption|].
      eapply Permutation_Forall; [symmetry; apply insert_desc_perm|].
      constructor; [|assumption].
      unfold desc. destruct (num_leb_total (metric x) (metric y)); congruence.
Qed.

Lemma stable_order_by_desc_sorted (l : list R) :
  StronglySorted (desc metric) (stable_order_by_desc metric l).
Proof.
  induction l as [|x t IH]; simpl; [constructor|].
  now apply insert_desc_sorted.
Qed.

End StableOrderFacts.

(* ================================================================== *)
(** * The engine's ORDER BY *)

(** SQL says of [ORDER BY metric DESC] that the rows come out rearranged in
    descending order of the metric, and leaves open in which order rows of
    equal metric come out; SQLite decides that by its query plan.  So the
    engine's ordering is a parameter too: any rearrangement into descending
    order.  Nothing proved below depends on how ties are broken. *)
Class SqlOrder {N : SqlNum} : Type := {
  sql_order_by_desc : forall R : Type, (R -> num) -> list R -> list R;
  sql_order_perm : forall (R : Type) (metric : R -> num) (l : list R),
      Permutation (sql_order_by_desc metric l) l;
  sql_order_sorted : forall (R : Type) (metric : R -> num) (l : list R),
      StronglySorted (desc metric) (sql_order_by_desc metric l)
}.

(** The stable sort is one such ordering; the sample runs whose outcome does
    not depend on ties are computed with it. *)
Definition StableOrder {N : SqlNum} : SqlOrder :=
  {| sql_order_by_desc := fun R metric l => stable_order_by_desc metric l;
     sql_order_perm := fun R metric l => stable_order_by_desc_perm metric l;
     sql_order_sorted := fun R metric l => stable_order_by_desc_sorted metric l |}.

Section EngineOrder.

Context {N : SqlNum} {O : SqlOrder}.
Variable R : Type.
Variable metric : R -> num.

(** [ORDER BY metric DESC], as the engine does it. *)
Definition order_by_desc (l : list R) : list R :=
  sql_order_by_desc metric l.

End EngineOrder.

(* ================================================================== *)
(** * The backing store *)

Section Store.

Context {N : SqlNum} {O : SqlOrder}.

(** The five tables, with the columns the statements read.  Identifiers are
    keys; the text columns the page groups by may be NULL ([None]). *)
Record Order := { o_Id : Z; o_CustomerId : string }.
Record Customer := { cu_Id : string; cu_Country : option string }.
Record OrderDetail := {
  od_OrderId : Z;
  od_ProductId : Z;
  od_UnitPrice : num;
  od_Quantity : num;
  od_Discount : num
}.
Record Product := { p_Id : Z; p_ProductName : option string; p_CategoryId : Z }.
Record Category := { c_Id : Z; c_CategoryName : option string }.

Record Store := {
  Order_table : list Order;
  Customer_table : list Customer;
  OrderDetail_table : list OrderDetail;
  Product_table : list Product;
  Category_table : list Category
}.

(** Equality of a nullable text key, as GROUP BY and pandas compare it:
    NULL is equal to NULL. *)
Definition text_eqb (a b : option string) : bool :=
  match a, b with
  | None, None => true
  | Some x, Some y => String.eqb x y
  | _, _ => false
  end.

(* ------------------------------------------------------------------ *)
(** ** Sales by country *)

Record CountrySales := {
  Country : option string;
  TotalSales : num;
  TotalOrders : Z
}.

(** FROM [Order] o JOIN Customer cu ON o.CustomerId = cu.Id
                   JOIN OrderDetail od ON o.Id = od.OrderId *)
Definition sales_lines (db : Store) : list (Order * Customer * OrderDetail) :=
  join (join (Order_table db) (Customer_table db)
             (fun o cu => String.eqb (o_CustomerId o) (cu_Id cu)))
       (OrderDetail_table db)
       (fun ocu od => Z.eqb (o_Id (fst ocu)) (od_OrderId od)).

Definition line_country (l : Order * Customer * OrderDetail) : option string :=
  cu_Country (snd (fst l)).
Definition line_order (l : Order * Customer * OrderDetail) : Z :=
  o_Id (fst (fst l)).
Definition line_amount (l : Order * Customer * OrderDetail) : num :=
  num_mul (od_UnitPrice (snd l)) (od_Quantity (snd l)).

(** SELECT cu.Country, ROUND(SUM(od.UnitPrice * od.Quantity), 2) AS TotalSales,
           COUNT(DISTINCT o.Id) AS TotalOrders
    ... GROUP BY cu.Country ORDER BY TotalSales DESC *)
Definition sales_by_country_sql (db : Store) : list CountrySales :=
  order_by_desc TotalSales
    (map (fun g => {| Country := fst g;
                      TotalSales := sql_round 2 (sql_sum line_amount (snd g));
                      TotalOrders := count_distinct Z.eqb line_order (snd g) |})
         (group_by text_eqb line_country (sales_lines db))).

(* ------------------------------------------------------------------ *)
(** ** Profit by category *)

Record CategoryProfit := {
  CategoryName : option string;
  Profit : num
}.

(** FROM OrderDetail od JOIN Product p ON od.ProductId = p.Id
                        JOIN Category c ON p.CategoryId = c.Id *)
Definition profit_lines (db : Store) : list (OrderDetail * Product * Category) :=
  join (join (OrderDetail_table db) (Product_table db)
             (fun od p => Z.eqb (od_ProductId od) (p_Id p)))
       (Category_table db)
       (fun odp c => Z.eqb (p_CategoryId (snd odp)) (c_Id c)).

Definition pline_category (l : OrderDetail * Product * Category) : option string :=
  c_CategoryName (snd l).
Definition pline_amount (l : OrderDetail * Product * Category) : num :=
  num_mul (od_UnitPrice (fst (fst l))) (od_Quantity (fst (fst l))).
Definition pline_discounted (l : OrderDetail * Product * Category) : num :=
  num_mul (num_mul (od_UnitPrice (fst (fst l))) (od_Quantity (fst (fst l))))
          (od_Discount (fst (fst l))).

(** SELECT c.CategoryName,
           ROUND(SUM(od.UnitPrice * od.Quantity) -
                 SUM(od.UnitPrice * od.Quantity * od.Discount), 2) AS Profit
    ... GROUP BY c.CategoryName ORDER BY Profit DESC *)
Definition profit_by_category_sql (db : Store) : list CategoryProfit :=
  order_by_desc Profit
    (map (fun g => {| CategoryName := fst g;
                      Profit := sql_round 2
                                  (num_sub (sql_sum pline_amount (snd g))
                                           (sql_sum pline_discounted (snd g))) |})
         (group_by text_eqb pline_category (profit_lines db))).

(* ------------------------------------------------------------------ *)
(** ** Top-selling products *)

Record TopProduct := {
  ProductName : option string;
  TotalSold : num;
  TotalRevenue : num
}.

(** FROM OrderDetail od JOIN Product p ON od.ProductId = p.Id *)
Definition product_lines (db : Store) : list (OrderDetail * Product) :=
  join (OrderDetail_table db) (Product_table db)
       (fun od p => Z.eqb (od_ProductId od) (p_Id p)).

Definition tline_product (l : OrderDetail * Product) : option string :=
  p_ProductName (snd l).
Definition tline_quantity (l : OrderDetail * Product) : num :=
  od_Quantity (fst l).
Definition tline_amount (l : OrderDetail * Product) : num :=
  num_mul (od_UnitPrice (fst l)) (od_Quantity (fst l)).

(** SELECT p.ProductName, SUM(od.Quantity) AS TotalSold,
           ROUND(SUM(od.UnitPrice * od.Quantity), 2) AS TotalRevenue
    ... GROUP BY p.ProductName ORDER BY TotalSold DESC LIMIT 10 *)
Definition top_selling_products_sql (db : Store) : list TopProduct :=
  limit 10
    (order_by_desc TotalSold
       (map (fun g => {| ProductName := fst g;
                         TotalSold := sql_sum tline_quantity (snd g);
                         TotalRevenue := sql_round 2 (sql_sum tline_amount (snd g)) |})
            (group_by text_eqb tline_product (product_lines db)))).

End Store.

(* ================================================================== *)
(** * pandas tables *)

Section Pandas.

Context {N : SqlNum} {O : SqlOrder}.

(** A cell of a table: SQL NULL (pandas' None/NaN), text, an integer count or
    an engine number. *)
Inductive Cell :=
| CNull
| CText (s : string)
| CInt (z : Z)
| CNum (x : num).

Definition cell_eqb (a b : Cell) : bool :=
  match a, b with
  | CNull, CNull => true
  | CText x, CText y => String.eqb x y
  | CInt x, CInt y => Z.eqb x y
  | CNum x, CNum y => num_eqb x y
  | _, _ => false
  end.

Definition text_cell (t : option string) : Cell :=
  match t with
  | None => CNull
  | Some s => CText s
  end.

(** A [DataFrame]: column names and rows, in order. *)
Record DataFrame := {
  df_columns : list string;
  df_rows : list (list Cell)
}.

(** [pd.DataFrame()]: no columns, no rows. *)
Definition DataFrame_empty : DataFrame := {| df_columns := []; df_rows := [] |}.

(** [len(df)]. *)
Definition df_len (df : DataFrame) : Z := Z.of_nat (List.length (df_rows df)).

(** [df.empty]: some axis has length zero. *)
Definition df_is_empty (df : DataFrame) : bool :=
  match df_columns df, df_rows df with
  | _ :: _, _ :: _ => false
  | _, _ => true
  end.

Fixpoint column_index (name : string) (cols : list string) : option nat :=
  match cols with
  | [] => None
  | c :: t => if String.eqb c name then Some 0
              else option_map S (column_index name t)
  end.

(** The values of column number [i]. *)
Definition column_values (i : nat) (df : DataFrame) : list Cell :=
  map (fun row => nth i row CNull) (df_rows df).

(** [series.dropna()]. *)
Definition dropna (s : list Cell) : list Cell :=
  filter (fun c => negb (cell_eqb c CNull)) s.

(** [series.unique()]: the distinct values in order of appearance. *)
Definition unique (s : list Cell) : list Cell := distinct cell_eqb s.

(** [series.isin(values)]: one boolean per row. *)
Definition isin (s : list Cell) (values : list Cell) : list bool :=
  map (fun c => existsb (cell_eqb c) values) s.

(** [df[mask]]: the rows whose mask entry is true, columns unchanged. *)
Definition boolean_index (df : DataFrame) (mask : list bool) : DataFrame :=
  {| df_columns := df_columns df;
     df_rows := map fst (filter snd (combine (df_rows df) mask)) |}.

(** The tables [read_sql_query] builds from the result rows of the three
    statements: the column names are the statements' result names. *)
Definition sales_frame (rows : list CountrySales) : DataFrame :=
  {| df_columns := ["Country"; "TotalSales"; "TotalOrders"]%string;
     df_rows := map (fun r => [text_cell (Country r); CNum (TotalSales r);
                               CInt (TotalOrders r)]) rows |}.

Definition profit_frame (rows : list CategoryProfit) : DataFrame :=
  {| df_columns := ["CategoryName"; "Profit"]%string;
     df_rows := map (fun r => [text_cell (CategoryName r); CNum (Profit r)]) rows |}.

Definition top_frame (rows : list TopProduct) : DataFrame :=
  {| df_columns := ["ProductName"; "TotalSold"; "TotalRevenue"]%string;
     df_rows := map (fun r => [text_cell (ProductName r); CNum (TotalSold r);
                               CNum (TotalRevenue r)]) rows |}.

End Pandas.

(* ================================================================== *)
(** * Python: exceptions, the world, and the monad that threads them *)

Section Python.

Context {N : SqlNum} {O : SqlOrder}.

(** The exception classes that occur.  All but [KeyboardInterrupt] derive
    from [Exception]; sqlite3's and pandas' errors do. *)
Inductive ExcClass :=
| OperationalError
| ProgrammingError
| DatabaseError
| KeyError
| KeyboardInterrupt.

Definition is_Exception (c : ExcClass) : bool :=
  match c with
  | KeyboardInterrupt => false
  | _ => true
  end.

(** An exception object: its class and [str(e)]. *)
Record PyExc := { exc_class : ExcClass; exc_str : string }.

Inductive Outcome (A : Type) :=
| Return (a : A)
| Raise (e : PyExc).
Arguments Return {A} a.
Arguments Raise {A} e.

(** What a chart call was given. *)
Inductive Figure :=
| px_bar (data_frame : DataFrame) (x y title : string)
| px_pie (data_frame : DataFrame) (values names title : string).

(** What streamlit was asked to render. *)
Inductive UiEvent :=
| st_markdown_ev (body : string)
| st_error_ev (body : string)
| st_warning_ev (body : string)
| st_subheader_ev (body : string)
| st_multiselect_ev (label : string) (options default : list Cell) (key : string)
| st_plotly_chart_ev (fig : Figure)
| st_dataframe_ev (data : DataFrame)
| st_metric_ev (label : string) (value : Z).

(** A statement, by its meaning: the table it yields for given bound
    parameters on a given store.  A statement that cannot run (a missing
    table, a locked file, an integer overflow of SUM) is a fault of the
    execution step (below). *)
Definition Query : Type := list Cell -> Store -> DataFrame.

(** The world the page runs in.
    - [store]: the content of data/Northwind_small.sqlite;
    - [faults]: whether the n-th step of sqlite3 or pandas I/O raises, and
      what; [io_steps] counts the steps taken;
    - [connections]: the open connection handles; [next_handle] is the handle
      the next successful connect returns;
    - [rendered]: what streamlit has rendered, oldest first;
    - [widget_state]: the session's value of each keyed widget, if the user
      has set one;
    - [local_conn]: the binding of the name [conn] in the running frame of
      [execute_query], if there is one. *)
Record World := {
  store : Store;
  faults : nat -> option PyExc;
  io_steps : nat;
  connections : list nat;
  next_handle : nat;
  rendered : list UiEvent;
  widget_state : string -> option (list Cell);
  local_conn : option nat
}.

Definition Py (A : Type) : Type := World -> Outcome A * World.

Definition ret (A : Type) (a : A) : Py A := fun w => (Return a, w).

Definition bind (A B : Type) (m : Py A) (k : A -> Py B) : Py B :=
  fun w => match m w with
           | (Return a, w') => k a w'
           | (Raise e, w') => (Raise e, w')
           end.

Definition raise (A : Type) (e : PyExc) : Py A := fun w => (Raise e, w).

(** [try: body except Exception as e: handler]. *)
Definition try_except (A : Type) (body : Py A) (handler : PyExc -> Py A) : Py A :=
  fun w => match body w with
           | (Raise e, w') =>
               if is_Exception (exc_class e) then handler e w' else (Raise e, w')
           | r => r
           end.

(** [try: body finally: cleanup]: the cleanup runs on every exit of the
    body; the body's outcome stands unless the cleanup itself raises. *)
Definition try_finally (A : Type) (body : Py A) (cleanup : Py unit) : Py A :=
  fun w => match body w with
           | (r, w') => match cleanup w' with
                        | (Return _, w'') => (r, w'')
                        | (Raise e, w'') => (Raise e, w'')
                        end
           end.

End Python.

Arguments Return {A} a.
Arguments Raise {A} e.
Arguments ret {N A} a.
Arguments bind {N A B} m k.
Arguments raise {N A} e.
Arguments try_except {N A} body handler.
Arguments try_finally {N A} body cleanup.

Notation "x <- m ;; k" := (bind m (fun x => k))
  (at level 61, m at next level, right associativity).
Notation "m ;; k" := (bind m (fun _ => k))
  (at level 61, right associativity).

(* ================================================================== *)
(** * The page *)

Section Page.

Context {N : SqlNum} {O : SqlOrder}.

Local Open Scope string_scope.

(* ------------------------------------------------------------------ *)
(** ** The outside calls *)

Definition set_rendered (r : list UiEvent) (w : World) : World :=
  {| store := store w; faults := faults w; io_steps := io_steps w;
     connections := connections w; next_handle := next_handle w;
     rendered := r; widget_state := widget_state w;
     local_conn := local_conn w |}.

Definition set_local_conn (c : option nat) (w : World) : World :=
  {| store := store w; faults := faults w; io_steps := io_steps w;
     connections := connections w; next_handle := next_handle w;
     rendered := rendered w; widget_state := widget_state w;
     local_conn := c |}.

Definition set_connections (cs : list nat) (nh : nat) (w : World) : World :=
  {| store := store w; faults := faults w; io_steps := io_steps w;
     connections := cs; next_handle := nh;
     rendered := rendered w; widget_state := widget_state w;
     local_conn := local_conn w |}.

Definition io_step (w : World) : World :=
  {| store := store w; faults := faults w; io_steps := S (io_steps w);
     connections := connections w; next_handle := next_handle w;
     rendered := rendered w; widget_state := widget_state w;
     local_conn := local_conn w |}.

Definition render (ev : UiEvent) : Py unit :=
  fun w => (Return tt, set_rendered (rendered w ++ [ev]) w).

Definition st_markdown (body : string) : Py unit := render (st_markdown_ev body).
Definition st_error (body : string) : Py unit := render (st_error_ev body).
Definition st_warning (body : string) : Py unit := render (st_warning_ev body).
Definition st_subheader (body : string) : Py unit := render (st_subheader_ev body).
Definition st_plotly_chart (fig : Figure) : Py unit := render (st_plotly_chart_ev fig).
Definition st_dataframe (data : DataFrame) : Py unit := render (st_dataframe_ev data).
Definition st_metric (label : string) (value : Z) : Py unit :=
  render (st_metric_ev label value).

(** [st.multiselect(label, options=, default=, key=)]: renders the control
    and returns the session's value for [key], which is [default] until the
    user has chosen. *)
Definition st_multiselect (label : string) (options default : list Cell)
    (key : string) : Py (list Cell) :=
  fun w =>
    (Return (match widget_state w key with
             | Some chosen => chosen
             | None => default
             end),
     set_rendered (rendered w ++ [st_multiselect_ev label options default key]) w).

(** [sqlite3.connect(database)]: one I/O step; it raises what the world
    says, or opens a fresh handle on the store. *)
Definition sqlite3_connect (database : string) : Py nat :=
  fun w =>
    match faults w (io_steps w) with
    | Some e => (Raise e, io_step w)
    | None => (Return (next_handle w),
               io_step (set_connections (next_handle w :: connections w)
                                        (S (next_handle w)) w))
    end.

(** [conn.close()]. *)
Definition conn_close (conn : nat) : Py unit :=
  fun w => (Return tt,
            set_connections (filter (fun h => negb (Nat.eqb h conn)) (connections w))
                            (next_handle w) w).

(** [pd.read_sql_query(query, conn, params=...)]: one I/O step on an open
    connection; it raises what the world says, or materialises the rows of
    the statement. *)
Definition pd_read_sql_query (query : Query) (conn : nat)
    (params : option (list Cell)) : Py DataFrame :=
  fun w =>
    if existsb (Nat.eqb conn) (connections w) then
      match faults w (io_steps w) with
      | Some e => (Raise e, io_step w)
      | None => (Return (query (match params with Some p => p | None => [] end)
                               (store w)),
                 io_step w)
      end
    else (Raise {| exc_class := ProgrammingError;
                   exc_str := "Cannot operate on a closed database." |}, w).

(** [df[name]]: the column, or KeyError. *)
Definition df_getitem (df : DataFrame) (name : string) : Py (list Cell) :=
  match column_index name (df_columns df) with
  | Some i => ret (column_values i df)
  | None => raise {| exc_class := KeyError; exc_str := "'" ++ name ++ "'" |}
  end.

(** A call runs in a frame of its own: no local is bound at entry, and the
    caller's bindings are back at exit. *)
Definition call_frame (A : Type) (body : Py A) : Py A :=
  fun w => match body (set_local_conn None w) with
           | (r, w') => (r, set_local_conn (local_conn w) w')
           end.

(** [conn = ...]. *)
Definition assign_conn (conn : nat) : Py unit :=
  fun w => (Return tt, set_local_conn (Some conn) w).

(** [locals().get('conn')]. *)
Definition locals_conn : Py (option nat) :=
  fun w => (Return (local_conn w), w).

(** Truth value of the [params] argument: None and the empty tuple are false. *)
Definition truthy (params : option (list Cell)) : bool :=
  match params with
  | Some (_ :: _) => true
  | _ => false
  end.

(* ------------------------------------------------------------------ *)
(** ** [execute_query] *)

Definition execute_query (query : Query) (params : option (list Cell)) : Py DataFrame :=
  call_frame
    (try_finally
       (try_except
          (conn <- sqlite3_connect "data/Northwind_small.sqlite" ;;
           assign_conn conn ;;
           df <- (if truthy params
                  then pd_read_sql_query query conn params
                  else pd_read_sql_query query conn None) ;;
           ret df)
          (fun e =>
             st_error ("Database error: " ++ exc_str e) ;;
             ret DataFrame_empty))
       (c <- locals_conn ;;
        match c with
        | Some conn => conn_close conn
        | None => ret tt
        end)).

(* ------------------------------------------------------------------ *)
(** ** The three loaders *)

Definition sales_by_country_query : Query :=
  fun _ db => sales_frame (sales_by_country_sql db).

Definition profit_by_category_query : Query :=
  fun _ db => profit_frame (profit_by_category_sql db).

Definition top_selling_products_query : Query :=
  fun _ db => top_frame (top_selling_products_sql db).

Definition load_sales_by_country : Py DataFrame :=
  execute_query sales_by_country_query None.

Definition load_profit_by_category : Py DataFrame :=
  execute_query profit_by_category_query None.

Definition load_top_selling_products : Py DataFrame :=
  execute_query top_selling_products_query None.

(* ------------------------------------------------------------------ *)
(** ** [main] *)

(** [df[df[key].isin(selected)]]. *)
Definition filter_isin (df : DataFrame) (key : string) (selected : list Cell)
    : Py DataFrame :=
  col <- df_getitem df key ;;
  ret (boolean_index df (isin col selected)).

(** The page body.  [st.columns] and the [with] blocks only place the
    output and are left out; a chart is recorded by the table and the
    columns it was given.  HTML attribute quotes are written as
    apostrophes. *)
Definition main : Py unit :=
  st_markdown "<h1 class='main-header'>🚀 Northwind Sales Analytics Dashboard</h1>" ;;
  sales_by_country <- load_sales_by_country ;;
  profit_by_category <- load_profit_by_category ;;
  top_selling_products <- load_top_selling_products ;;
  st_markdown "<div class='filter-container'>" ;;
  country_options <- df_getitem sales_by_country "Country" ;;
  country_default <- df_getitem sales_by_country "Country" ;;
  selected_countries <-
    st_multiselect "🌍 Select Countries"
                   (unique (dropna country_options))
                   (firstn 5 (unique (dropna country_default)))
                   "country_filter" ;;
  category_options <- df_getitem profit_by_category "CategoryName" ;;
  category_default <- df_getitem profit_by_category "CategoryName" ;;
  selected_categories <-
    st_multiselect "📦 Select Product Categories"
                   (unique category_options)
                   (unique category_default)
                   "category_filter" ;;
  st_markdown "</div>" ;;
  filtered_country_sales <- filter_isin sales_by_country "Country" selected_countries ;;
  filtered_category_profit <-
    filter_isin profit_by_category "CategoryName" selected_categories ;;
  st_subheader "🌍 Sales by Country" ;;
  (if negb (df_is_empty filtered_country_sales)
   then st_plotly_chart (px_bar filtered_country_sales "Country" "TotalSales"
                                "Sales Distribution by Country")
   else st_warning "No data available for selected countries") ;;
  st_subheader "📦 Profit by Category" ;;
  (if negb (df_is_empty filtered_category_profit)
   then st_plotly_chart (px_pie filtered_category_profit "Profit" "CategoryName"
                                "Profit Distribution by Product Category")
   else st_warning "No data available for selected categories") ;;
  st_subheader "🏆 Top 10 Selling Products" ;;
  st_dataframe top_selling_products ;;
  st_metric "🌐 Total Countries" (df_len sales_by_country) ;;
  st_metric "📁 Total Product Categories" (df_len profit_by_category).

End Page.

(* ================================================================== *)
(** * The vocabulary of the statements *)

Section Vocabulary.

Context {N : SqlNum} {O : SqlOrder}.

Local Open Scope string_scope.

(** The parameters a statement is bound to. *)
Definition bound (params : option (list Cell)) : list Cell :=
  match params with
  | Some p => p
  | None => []
  end.

(** The connection attempt and the execution of the next statement both
    succeed. *)
Definition store_answers (w : World) : Prop :=
  faults w (io_steps w) = None /\ faults w (S (io_steps w)) = None.

(** The next use of the store fails with [e]: at the connection attempt, or
    at the execution of the statement. *)
Definition store_fails (w : World) (e : PyExc) : Prop :=
  faults w (io_steps w) = Some e \/
  (faults w (io_steps w) = None /\ faults w (S (io_steps w)) = Some e).

(** The handles left open when the handle [h] is closed. *)
Definition without (h : nat) (cs : list nat) : list nat :=
  filter (fun c => negb (Nat.eqb c h)) cs.

(** The world after a call of [execute_query] that took [steps] I/O steps,
    opened the next handle or not, and rendered [evs]. *)
Definition after_call (steps : nat) (opened : bool) (evs : list UiEvent)
    (w : World) : World :=
  {| store := store w; faults := faults w; io_steps := steps + io_steps w;
     connections := if opened
                    then without (next_handle w) (next_handle w :: connections w)
                    else connections w;
     next_handle := if opened then S (next_handle w) else next_handle w;
     rendered := rendered w ++ evs; widget_state := widget_state w;
     local_conn := local_conn w |}.

(** The shape the three statements share: the joined lines are grouped by a
    text key, each group is turned into one result row, and the rows are
    ordered by a metric, descending. *)
Definition grouped_rows (L R : Type) (key : L -> option string)
    (make_row : option string * list L -> R) (metric : R -> num)
    (lines : list L) : list R :=
  order_by_desc metric (map make_row (group_by text_eqb key lines)).

(** The lines of one key, in their input order. *)
Definition lines_of (L : Type) (key : L -> option string) (k : option string)
    (lines : list L) : list L :=
  filter (fun l => text_eqb k (key l)) lines.


(** The order lines of a country: the joined lines whose customer is in it. *)
Definition country_lines (db : Store) (c : option string)
    : list (Order * Customer * OrderDetail) :=
  lines_of line_country c (sales_lines db).



(** The rows of a table whose cell in column [i] is one of [selected], in the
    table's order. *)
Definition restrict (df : DataFrame) (i : nat) (selected : list Cell) : DataFrame :=
  {| df_columns := df_columns df;
     df_rows := filter (fun row => existsb (cell_eqb (nth i row CNull)) selected)
                       (df_rows df) |}.

(** The value a multiselect returns: the user's choice, or the default. *)
Definition selection (ws : string -> option (list Cell)) (key : string)
    (default : list Cell) : list Cell :=
  match ws key with
  | Some chosen => chosen
  | None => default
  end.

(** What the first column shows: the bar chart of the table it is given, or
    the warning when that table is empty. *)
Definition country_chart (filtered_country_sales : DataFrame) : UiEvent :=
  if negb (df_is_empty filtered_country_sales)
  then st_plotly_chart_ev (px_bar filtered_country_sales "Country" "TotalSales"
                                  "Sales Distribution by Country")
  else st_warning_ev "No data available for selected countries".

(** What the second column shows: the pie chart of the table it is given, or
    the warning when that table is empty. *)
Definition category_chart (filtered_category_profit : DataFrame) : UiEvent :=
  if negb (df_is_empty filtered_category_profit)
  then st_plotly_chart_ev (px_pie filtered_category_profit "Profit" "CategoryName"
                                  "Profit Distribution by Product Category")
  else st_warning_ev "No data available for selected categories".

(** The events of one run of the page on three loaded tables that have their
    key column in first place, under the widget values [ws]. *)
Definition page_events (sales profit top : DataFrame)
    (ws : string -> option (list Cell)) : list UiEvent :=
  let countries := unique (dropna (column_values 0 sales)) in
  let categories := unique (column_values 0 profit) in
  let selected_countries := selection ws "country_filter" (firstn 5 countries) in
  let selected_categories := selection ws "category_filter" categories in
  [ st_markdown_ev "<h1 class='main-header'>🚀 Northwind Sales Analytics Dashboard</h1>";
    st_markdown_ev "<div class='filter-container'>";
    st_multiselect_ev "🌍 Select Countries" countries (firstn 5 countries)
                      "country_filter";
    st_multiselect_ev "📦 Select Product Categories" categories categories
                      "category_filter";
    st_markdown_ev "</div>";
    st_subheader_ev "🌍 Sales by Country";
    country_chart (restrict sales 0 selected_countries);
    st_subheader_ev "📦 Profit by Category";
    category_chart (restrict profit 0 selected_categories);
    st_subheader_ev "🏆 Top 10 Selling Products";
    st_dataframe_ev top;
    st_metric_ev "🌐 Total Countries" (df_len sales);
    st_metric_ev "📁 Total Product Categories" (df_len profit) ].

(** An event that shows data: a chart, its stand-in warning, the table or a
    counter. *)
Definition shows_data (ev : UiEvent) : bool :=
  match ev with
  | st_plotly_chart_ev _ | st_warning_ev _ | st_dataframe_ev _
  | st_metric_ev _ _ => true
  | _ => false
  end.

(** Every failure the store can produce is of a class that derives from
    Exception. *)
Definition store_errors_only (w : World) : Prop :=
  forall n e, faults w n = Some e -> is_Exception (exc_class e) = true.

End Vocabulary.

(* ================================================================== *)
(** * Further vocabulary: the whole page, the counters *)

Section PageVocabulary.

Context {N : SqlNum} {O : SqlOrder}.

Local Open Scope string_scope.

(** Every open handle was handed out before: the next handle is unused. *)
Definition handles_fresh (w : World) : Prop :=
  forall h, In h (connections w) -> (h < next_handle w)%nat.

(** A computation relates every world it starts in to the world it leaves,
    whether it returns or raises. *)
Definition keeps (R : World -> World -> Prop) (A : Type) (m : Py A) : Prop :=
  forall w, R w (snd (m w)).

(** What a computation returns satisfies [P], whenever it returns. *)
Definition yields (A : Type) (m : Py A) (P : A -> Prop) : Prop :=
  forall w a w', m w = (Return a, w') -> P a.

(** No connection is gained or lost, and handles stay fresh. *)
Definition same_connections (w w' : World) : Prop :=
  handles_fresh w -> handles_fresh w' /\ connections w' = connections w.

(** A multiselect whose preselected values are all among its options. *)
Definition default_offered (ev : UiEvent) : Prop :=
  match ev with
  | st_multiselect_ev _ options default _ => incl default options
  | _ => True
  end.

(** The world has only gained rendered events, all of which satisfy [P]. *)
Definition renders_only (P : UiEvent -> Prop) (w w' : World) : Prop :=
  exists evs, rendered w' = (rendered w ++ evs)%list /\ Forall P evs.




End PageVocabulary.

(* ================================================================== *)
(** * The data model's words *)

Section DataModelWords.

Context {N : SqlNum}.




End DataModelWords.

(* ================================================================== *)
(** * Integer stores *)

Lemma Z_leb_total (a b : Z) : Z.leb a b = true \/ Z.leb b a = true.
Proof. rewrite !Z.leb_le. lia. Qed.

Lemma Z_leb_trans (a b c : Z) :
  Z.leb a b = true -> Z.leb b c = true -> Z.leb a c = true.
Proof. rewrite !Z.leb_le. lia. Qed.

(** The instance used to run the model: stores whose numeric cells are all
    integers.  On such data SQLite's [*] and [SUM] are integer arithmetic and
    ROUND(x, 2) leaves the value unchanged (64-bit overflow apart). *)
#[export] Instance IntegerNum : SqlNum :=
  {| num := Z; num_zero := 0%Z; num_add := Z.add; num_sub := Z.sub;
     num_mul := Z.mul; sql_round := fun _ x => x;
     num_leb := Z.leb; num_eqb := Z.eqb;
     num_leb_total := Z_leb_total; num_leb_trans := Z_leb_trans;
     num_eqb_eq := Z.eqb_eq |}.

(* ================================================================== *)
(** * A small store and some worlds to run the page on *)

Section Samples.

Local Open Scope string_scope.
Local Open Scope Z_scope.

(** Two customers in two countries with one order of one line each, both of
    total 10; a third customer without orders. *)
Definition tie_store : Store (N := IntegerNum) :=
  {| Order_table := [ {| o_Id := 1; o_CustomerId := "ANTON" |};
                      {| o_Id := 2; o_CustomerId := "BOLID" |} ];
     Customer_table := [ {| cu_Id := "ANTON"; cu_Country := Some "Mexico" |};
                         {| cu_Id := "BOLID"; cu_Country := Some "Spain" |};
                         {| cu_Id := "PARIS"; cu_Country := Some "France" |} ];
     OrderDetail_table :=
       [ {| od_OrderId := 1; od_ProductId := 11; od_UnitPrice := 10;
            od_Quantity := 1; od_Discount := 0 |};
         {| od_OrderId := 2; od_ProductId := 42; od_UnitPrice := 5;
            od_Quantity := 2; od_Discount := 0 |} ];
     Product_table := [ {| p_Id := 11; p_ProductName := Some "Queso Cabrales";
                           p_CategoryId := 4 |};
                        {| p_Id := 42; p_ProductName := Some "Singaporean Hokkien Fried Mee";
                           p_CategoryId := 5 |} ];
     Category_table := [ {| c_Id := 4; c_CategoryName := Some "Dairy Products" |};
                         {| c_Id := 5; c_CategoryName := Some "Grains/Cereals" |} ] |}.

(** A first page load on a store that answers: no connection is open, nothing
    is rendered, no widget has a value. *)
Definition fresh_world (db : Store (N := IntegerNum)) : World :=
  {| store := db; faults := fun _ => None; io_steps := 0%nat;
     connections := []; next_handle := 0%nat; rendered := [];
     widget_state := fun _ => None; local_conn := None |}.

(** sqlite3's error when the database file cannot be opened. *)
Definition unable_to_open : PyExc :=
  {| exc_class := OperationalError; exc_str := "unable to open database file" |}.

(** pandas' error when the statement cannot be executed. *)
Definition execution_failed : PyExc :=
  {| exc_class := DatabaseError; exc_str := "Execution failed on sql" |}.

(** The same page load when every connection attempt fails. *)
Definition unreachable_world (db : Store (N := IntegerNum)) : World :=
  {| store := db; faults := fun _ => Some unable_to_open; io_steps := 0%nat;
     connections := []; next_handle := 0%nat; rendered := [];
     widget_state := fun _ => None; local_conn := None |}.

(** The same page load when the second statement (I/O steps 2 and 3) cannot
    be executed. *)
Definition second_fails_world (db : Store (N := IntegerNum)) : World :=
  {| store := db;
     faults := fun n => if Nat.eqb n 3 then Some execution_failed else None;
     io_steps := 0%nat;
     connections := []; next_handle := 0%nat; rendered := [];
     widget_state := fun _ => None; local_conn := None |}.

(** A rerun in which the user has cleared both filters. *)
Definition cleared_world (db : Store (N := IntegerNum)) : World :=
  {| store := db; faults := fun _ => None; io_steps := 0%nat;
     connections := []; next_handle := 0%nat; rendered := [];
     widget_state := fun _ => Some []; local_conn := None |}.

End Samples.

(* ================================================================== *)
(** * Further samples *)

Section MoreSamples.

Local Open Scope string_scope.
Local Open Scope Z_scope.

(** The sample store before any order was entered. *)
Definition no_orders_store : Store (N := IntegerNum) :=
  {| Order_table := [];
     Customer_table := Customer_table tie_store;
     OrderDetail_table := [];
     Product_table := Product_table tie_store;
     Category_table := Category_table tie_store |}.

(** The sample store when the first customer has no country on record. *)
Definition no_country_store : Store (N := IntegerNum) :=
  {| Order_table := Order_table tie_store;
     Customer_table := [ {| cu_Id := "ANTON"; cu_Country := None |};
                         {| cu_Id := "BOLID"; cu_Country := Some "Spain" |} ];
     OrderDetail_table := OrderDetail_table tie_store;
     Product_table := Product_table tie_store;
     Category_table := Category_table tie_store |}.

(** A store without ties.  Eight customers: seven countries and one
    customer without a country on record; the customer in Italy has no
    order.  Germany has two orders, one of them of two lines; the USA have
    two orders, one of them, order 9, without a line.  Two lines are fully
    discounted.  The category Seafood has no product. *)
Definition northwind_sample : Store (N := IntegerNum) :=
  {| Order_table := [ {| o_Id := 1; o_CustomerId := "ALFKI" |};
                      {| o_Id := 2; o_CustomerId := "NOCTY" |};
                      {| o_Id := 3; o_CustomerId := "RATTC" |};
                      {| o_Id := 4; o_CustomerId := "HANAR" |};
                      {| o_Id := 5; o_CustomerId := "BLONP" |};
                      {| o_Id := 6; o_CustomerId := "AROUT" |};
                      {| o_Id := 7; o_CustomerId := "BOLID" |};
                      {| o_Id := 8; o_CustomerId := "ALFKI" |};
                      {| o_Id := 9; o_CustomerId := "RATTC" |} ];
     Customer_table := [ {| cu_Id := "ALFKI"; cu_Country := Some "Germany" |};
                         {| cu_Id := "NOCTY"; cu_Country := None |};
                         {| cu_Id := "RATTC"; cu_Country := Some "USA" |};
                         {| cu_Id := "HANAR"; cu_Country := Some "Brazil" |};
                         {| cu_Id := "BLONP"; cu_Country := Some "France" |};
                         {| cu_Id := "AROUT"; cu_Country := Some "UK" |};
                         {| cu_Id := "BOLID"; cu_Country := Some "Spain" |};
                         {| cu_Id := "FRANS"; cu_Country := Some "Italy" |} ];
     OrderDetail_table :=
       [ {| od_OrderId := 1; od_ProductId := 11; od_UnitPrice := 10;
            od_Quantity := 4; od_Discount := 0 |};
         {| od_OrderId := 1; od_ProductId := 42; od_UnitPrice := 5;
            od_Quantity := 2; od_Discount := 0 |};
         {| od_OrderId := 8; od_ProductId := 72; od_UnitPrice := 10;
            od_Quantity := 2; od_Discount := 0 |};
         {| od_OrderId := 2; od_ProductId := 42; od_UnitPrice := 12;
            od_Quantity := 5; od_Discount := 0 |};
         {| od_OrderId := 3; od_ProductId := 11; od_UnitPrice := 10;
            od_Quantity := 5; od_Discount := 1 |};
         {| od_OrderId := 4; od_ProductId := 72; od_UnitPrice := 8;
            od_Quantity := 5; od_Discount := 0 |};
         {| od_OrderId := 5; od_ProductId := 42; od_UnitPrice := 10;
            od_Quantity := 3; od_Discount := 1 |};
         {| od_OrderId := 6; od_ProductId := 72; od_UnitPrice := 20;
            od_Quantity := 1; od_Discount := 0 |};
         {| od_OrderId := 7; od_ProductId := 33; od_UnitPrice := 10;
            od_Quantity := 1; od_Discount := 0 |} ];
     Product_table :=
       [ {| p_Id := 11; p_ProductName := Some "Queso Cabrales"; p_CategoryId := 4 |};
         {| p_Id := 42; p_ProductName := Some "Singaporean Hokkien Fried Mee";
            p_CategoryId := 5 |};
         {| p_Id := 72; p_ProductName := Some "Mozzarella di Giovanni";
            p_CategoryId := 4 |};
         {| p_Id := 33; p_ProductName := Some "Geitost"; p_CategoryId := 4 |} ];
     Category_table := [ {| c_Id := 4; c_CategoryName := Some "Dairy Products" |};
                         {| c_Id := 5; c_CategoryName := Some "Grains/Cereals" |};
                         {| c_Id := 8; c_CategoryName := Some "Seafood" |} ] |}.



(** An interrupt from the keyboard: not an Exception. *)
Definition interrupt : PyExc :=
  {| exc_class := KeyboardInterrupt; exc_str := "" |}.

(** A page load that is interrupted while the first statement runs. *)
Definition interrupted_world (db : Store (N := IntegerNum)) : World :=
  {| store := db;
     faults := fun n => if Nat.eqb n 1 then Some interrupt else None;
     io_steps := 0%nat;
     connections := []; next_handle := 0%nat; rendered := [];
     widget_state := fun _ => None; local_conn := None |}.

(** A rerun while one connection of another session, handle 0, is open, and
    the user has chosen Spain only. *)
Definition rerun_world (db : Store (N := IntegerNum)) : World :=
  {| store := db; faults := fun _ => None; io_steps := 6%nat;
     connections := [0%nat]; next_handle := 4%nat; rendered := [];
     widget_state := fun key => if String.eqb key "country_filter"
                                then Some [CText "Spain"] else None;
     local_conn := None |}.

End MoreSamples.

(* ================================================================== *)
(** * Facts about the relational operators *)

Section RelationalFacts.

Variables (A B K : Type).
Variable eqb : K -> K -> bool.
Hypothesis eqb_eq : forall x y, eqb x y = true <-> x = y.

Lemma eqb_refl_true (x : K) : eqb x x = true.
Proof. now apply eqb_eq. Qed.

Lemma in_join (l : list A) (r : list B) (on : A -> B -> bool) (a : A) (b : B) :
  In (a, b) (join l r on) <-> In a l /\ In b r /\ on a b = true.
Proof.
  unfold join. rewrite in_flat_map. split.
  - intros (a' & Ha & Hin). apply in_map_iff in Hin.
    destruct Hin as (b' & Heq & Hb). inversion Heq; subst.
    apply filter_In in Hb. tauto.
  - intros (Ha & Hb & Hon). exists a. split; [assumption|].
    apply in_map. apply filter_In. tauto.
Qed.

Lemma distinct_In (l : list K) (x : K) : In x (distinct eqb l) <-> In x l.
Proof.
  induction l as [|y t IH]; simpl; [tauto|].
  rewrite filter_In, IH. split.
  - tauto.
  - intros [Hy | Ht]; [now left|].
    destruct (eqb y x) eqn:E.
    + left. now apply eqb_eq.
    + right. now split.
Qed.

Lemma distinct_NoDup (l : list K) : NoDup (distinct eqb l).
Proof.
  induction l as [|y t IH]; simpl; constructor.
  - rewrite filter_In. intros [_ H]. now rewrite eqb_refl_true in H.
  - now apply NoDup_filter.
Qed.

Lemma filter_keep_all (f : K -> bool) (l : list K) :
  (forall x, In x l -> f x = true) -> filter f l = l.
Proof.
  induction l as [|y t IH]; simpl; intros H; [reflexivity|].
  rewrite (H y (or_introl eq_refl)). f_equal. apply IH. auto.
Qed.

Lemma distinct_NoDup_id (l : list K) : NoDup l -> distinct eqb l = l.
Proof.
  induction 1 as [|y t Hy Ht IH]; simpl; [reflexivity|].
  rewrite IH. f_equal. apply filter_keep_all.
  intros x Hx. destruct (eqb y x) eqn:E; [|reflexivity].
  apply eqb_eq in E. now subst.
Qed.


Lemma in_firstn (n : nat) (l : list K) (x : K) : In x (firstn n l) -> In x l.
Proof.
  revert n. induction l as [|y t IH]; intros [|n]; simpl; try tauto.
  intros [H | H]; [now left | right; eauto].
Qed.


Lemma group_by_keys (key : A -> K) (rows : list A) :
  map fst (group_by eqb key rows) = distinct eqb (map key rows).
Proof.
  unfold group_by. rewrite map_map. simpl. apply map_id.
Qed.

Lemma in_group_by (key : A -> K) (rows : list A) (g : K * list A) :
  In g (group_by eqb key rows) ->
  In (fst g) (map key rows) /\
  snd g = filter (fun r => eqb (fst g) (key r)) rows.
Proof.
  unfold group_by. rewrite in_map_iff. intros (k & <- & Hk). simpl.
  split; [|reflexivity]. now apply distinct_In.
Qed.

Lemma NoDup_map_eq (f : A -> B) (l : list A) (a b : A) :
  NoDup (map f l) -> In a l -> In b l -> f a = f b -> a = b.
Proof.
  induction l as [|x t IH]; simpl; intros H Ha Hb E; [contradiction|].
  inversion H as [|? ? Hx Ht]; subst.
  destruct Ha as [<- | Ha], Hb as [<- | Hb]; auto.
  - exfalso. apply Hx. rewrite E. now apply in_map.
  - exfalso. apply Hx. rewrite <- E. now apply in_map.
Qed.











(** Two descending arrangements of the same rows are the same list when no
    two rows are tied. *)
Lemma sorted_perm_unique (rel : A -> A -> Prop) (l1 l2 : list A) :
  (forall a b, In a l1 -> In b l1 -> rel a b -> rel b a -> a = b) ->
  StronglySorted rel l1 -> StronglySorted rel l2 -> Permutation l1 l2 ->
  l1 = l2.
Proof.
  revert l2. induction l1 as [|x t IH]; intros l2 Hanti H1 H2 Hp.
  - now apply Permutation_nil in Hp.
  - destruct l2 as [|y t2]; [symmetry in Hp; now apply Permutation_nil in Hp|].
    inversion H1 as [|? ? Ht Hx]; subst. inversion H2 as [|? ? Ht2 Hy]; subst.
    rewrite Forall_forall in Hx, Hy.
    assert (E : x = y).
    { assert (Hxin : In x (y :: t2))
        by (eapply Permutation_in; [exact Hp | now left]).
      assert (Hyin : In y (x :: t))
        by (eapply Permutation_in; [symmetry; exact Hp | now left]).
      destruct Hxin as [-> | Hxin]; [reflexivity|].
      destruct Hyin as [-> | Hyin]; [reflexivity|].
      apply Hanti; [now left | now right | now apply Hx | now apply Hy]. }
    subst y. f_equal. apply IH; try assumption.
    + intros a b Ha Hb. apply Hanti; now right.
    + eapply Permutation_cons_inv. exact Hp.
Qed.

End RelationalFacts.

Section OrderingFacts.

Context {N : SqlNum} {O : SqlOrder}.
Variable R : Type.
Variable metric : R -> num.

Lemma order_by_desc_perm (l : list R) : Permutation (order_by_desc metric l) l.
Proof. apply sql_order_perm. Qed.

Lemma order_by_desc_sorted (l : list R) :
  StronglySorted (desc metric) (order_by_desc metric l).
Proof. apply sql_order_sorted. Qed.

Lemma order_by_desc_nil : order_by_desc metric [] = [].
Proof.
  apply Permutation_nil. symmetry. apply order_by_desc_perm.
Qed.




End OrderingFacts.

(* ================================================================== *)
(** * Orderings of integer rows without ties *)

Section IntegerOrder.

Variable O : SqlOrder (N := IntegerNum).
Variable R : Type.
Variable metric : R -> Z.

(** A list of integers that [nodup] leaves as it is has no repeats. *)
Lemma NoDup_checked (l : list Z) : nodup Z.eq_dec l = l -> NoDup l.
Proof. intros <-. apply NoDup_nodup. Qed.

(** When no two rows have the same metric, every engine ordering returns
    the rows as the stable sort does. *)
Lemma order_by_desc_determined (l : list R) :
  NoDup (map metric l) ->
  order_by_desc (O := O) metric l = stable_order_by_desc (N := IntegerNum) metric l.
Proof.
  intros Hn.
  apply (sorted_perm_unique (rel := desc (N := IntegerNum) metric)).
  - intros a b Ha Hb Hab Hba.
    apply (@NoDup_map_eq _ _ metric l); try assumption.
    + eapply Permutation_in; [apply (order_by_desc_perm (O := O)) | exact Ha].
    + eapply Permutation_in; [apply (order_by_desc_perm (O := O)) | exact Hb].
    + unfold desc in Hab, Hba. cbn in Hab, Hba.
      apply Z.leb_le in Hab. apply Z.leb_le in Hba. lia.
  - apply order_by_desc_sorted.
  - apply stable_order_by_desc_sorted.
  - rewrite order_by_desc_perm. symmetry. apply stable_order_by_desc_perm.
Qed.

End IntegerOrder.

(* ================================================================== *)
(** * Facts about [execute_query] *)

Section ExecuteFacts.

Context {N : SqlNum} {O : SqlOrder}.

Local Open Scope string_scope.

(** Unfolds a call of [execute_query] down to the outside calls. *)
Ltac unfold_execute :=
  unfold execute_query, call_frame, try_finally, try_except, bind,
    sqlite3_connect, assign_conn, pd_read_sql_query, locals_conn, conn_close,
    st_error, render, ret;
  simpl.

Lemma execute_query_ok (query : Query) (params : option (list Cell)) (w : World) :
  store_answers w ->
  execute_query query params w
  = (Return (query (bound params) (store w)), after_call 2 true [] w).
Proof.
  intros [Hc Hr]. unfold_execute. rewrite Hc. simpl.
  destruct params as [[|c p]|]; simpl; rewrite Nat.eqb_refl; simpl;
    rewrite Hr; simpl; unfold after_call, set_local_conn, without; simpl;
    rewrite Nat.eqb_refl, app_nil_r; reflexivity.
Qed.

Lemma execute_query_connect_fails (query : Query) (params : option (list Cell))
    (w : World) (e : PyExc) :
  faults w (io_steps w) = Some e ->
  execute_query query params w
  = if is_Exception (exc_class e)
    then (Return DataFrame_empty,
          after_call 1 false [st_error_ev ("Database error: " ++ exc_str e)] w)
    else (Raise e, after_call 1 false [] w).
Proof.
  intros Hc. unfold_execute. rewrite Hc.
  destruct (is_Exception (exc_class e)); simpl;
    unfold after_call, set_local_conn; simpl; rewrite ?app_nil_r; reflexivity.
Qed.

Lemma execute_query_read_fails (query : Query) (params : option (list Cell))
    (w : World) (e : PyExc) :
  faults w (io_steps w) = None ->
  faults w (S (io_steps w)) = Some e ->
  execute_query query params w
  = if is_Exception (exc_class e)
    then (Return DataFrame_empty,
          after_call 2 true [st_error_ev ("Database error: " ++ exc_str e)] w)
    else (Raise e, after_call 2 true [] w).
Proof.
  intros Hc Hr. unfold_execute. rewrite Hc. simpl.
  destruct params as [[|c p]|]; simpl; rewrite Nat.eqb_refl; simpl;
    rewrite Hr; destruct (is_Exception (exc_class e)); simpl;
    unfold after_call, set_local_conn, without; simpl;
    rewrite Nat.eqb_refl, ?app_nil_r; reflexivity.
Qed.


(** When every failure is a store error, [execute_query] returns a table
    whatever happens, and renders at most an error message. *)
Lemma execute_query_returns (query : Query) (params : option (list Cell)) (w : World) :
  store_errors_only w ->
  exists df steps opened evs,
    execute_query query params w = (Return df, after_call steps opened evs w) /\
    Forall (fun ev => shows_data ev = false) evs.
Proof.
  intros Hx.
  destruct (faults w (io_steps w)) as [e|] eqn:Hc.
  - rewrite (execute_query_connect_fails _ _ _ Hc), (Hx _ _ Hc).
    repeat eexists. repeat constructor.
  - destruct (faults w (S (io_steps w))) as [e|] eqn:Hr.
    + rewrite (execute_query_read_fails _ _ _ Hc Hr), (Hx _ _ Hr).
      repeat eexists. repeat constructor.
    + rewrite (execute_query_ok query params (conj Hc Hr)).
      repeat eexists. constructor.
Qed.

End ExecuteFacts.

(* ================================================================== *)
(** * The query executor: errors and the connection *)

Section ExecutorClaims.

Context {N : SqlNum} {O : SqlOrder}.

Local Open Scope string_scope.

Lemma in_without (h x : nat) (cs : list nat) :
  In x (without h cs) <-> In x cs /\ x <> h.
Proof.
  unfold without. rewrite filter_In, negb_true_iff, Nat.eqb_neq. tauto.
Qed.

Lemma without_fresh (h : nat) (cs : list nat) :
  ~ In h cs -> without h (h :: cs) = cs.
Proof.
  intros Hh. unfold without. simpl. rewrite Nat.eqb_refl. simpl.
  apply filter_keep_all. intros x Hx.
  apply negb_true_iff, Nat.eqb_neq. intros ->. contradiction.
Qed.

(** C4. A failure of the connection attempt or of the execution, of a class
    that derives from Exception (sqlite3's and pandas' errors do), is caught:
    [execute_query] returns normally, one error message naming the failure is
    rendered, and the result is the table with no rows and no columns.  The
    same holds for each of the three loaders. *)
Theorem execute_query_catches_failure
    (w : World) (e : PyExc) :
  is_Exception (exc_class e) = true ->
  store_fails w e ->
  exists w',
    (forall query params,
        execute_query query params w = (Return DataFrame_empty, w')) /\
    rendered w' = (rendered w ++ [st_error_ev ("Database error: " ++ exc_str e)])%list /\
    df_rows DataFrame_empty = [] /\
    df_columns DataFrame_empty = [] /\
    load_sales_by_country w = (Return DataFrame_empty, w') /\
    load_profit_by_category w = (Return DataFrame_empty, w') /\
    load_top_selling_products w = (Return DataFrame_empty, w').
Proof.
  intros He [Hc | [Hc Hr]].
  - exists (after_call 1 false [st_error_ev ("Database error: " ++ exc_str e)] w).
    assert (H : forall query params,
               execute_query query params w
               = (Return DataFrame_empty,
                  after_call 1 false
                    [st_error_ev ("Database error: " ++ exc_str e)] w)).
    { intros. rewrite (execute_query_connect_fails _ _ _ Hc), He. reflexivity. }
    repeat split; auto; apply H.
  - exists (after_call 2 true [st_error_ev ("Database error: " ++ exc_str e)] w).
    assert (H : forall query params,
               execute_query query params w
               = (Return DataFrame_empty,
                  after_call 2 true
                    [st_error_ev ("Database error: " ++ exc_str e)] w)).
    { intros. rewrite (execute_query_read_fails _ _ _ Hc Hr), He. reflexivity. }
    repeat split; auto; apply H.
Qed.

(** C5. Whatever the statement and whatever happens (success, a failed
    connection attempt, a failed execution, even an exception that is not
    caught), no connection is open after [execute_query] that was not open
    before it; the handle the call opened is closed again; and when that
    handle was fresh the open connections are exactly those of before. *)
Theorem execute_query_closes_connection
    (query : Query) (params : option (list Cell)) (w : World) :
  let w' := snd (execute_query query params w) in
  (forall h, In h (connections w') -> In h (connections w)) /\
  match faults w (io_steps w) with
  | None => ~ In (next_handle w) (connections w')
  | Some _ => connections w' = connections w
  end /\
  (~ In (next_handle w) (connections w) -> connections w' = connections w).
Proof.
  destruct (faults w (io_steps w)) as [e|] eqn:Hc.
  - rewrite (execute_query_connect_fails _ _ _ Hc).
    destruct (is_Exception (exc_class e)); simpl; auto.
  - assert (Hopen : forall evs,
               (forall h, In h (connections (after_call 2 true evs w)) ->
                          In h (connections w)) /\
               ~ In (next_handle w) (connections (after_call 2 true evs w)) /\
               (~ In (next_handle w) (connections w) ->
                connections (after_call 2 true evs w) = connections w)).
    { intros evs. unfold after_call. cbn [connections]. repeat split.
      - intros h Hh. apply in_without in Hh. destruct Hh as [[<- | Hh] Hne];
          [congruence | assumption].
      - intros Hh. apply in_without in Hh. tauto.
      - apply without_fresh. }
    destruct (faults w (S (io_steps w))) as [e|] eqn:Hr.
    + rewrite (execute_query_read_fails _ _ _ Hc Hr).
      destruct (is_Exception (exc_class e)); apply Hopen.
    + rewrite (execute_query_ok query params (conj Hc Hr)). apply Hopen.
Qed.

End ExecutorClaims.

(* ================================================================== *)
(** * Grouped, aggregated and ordered statements *)

Lemma text_eqb_eq (a b : option string) : text_eqb a b = true <-> a = b.
Proof.
  destruct a as [x|], b as [y|]; simpl; try (split; congruence).
  rewrite String.eqb_eq. split; congruence.
Qed.

Section GroupedQuery.

Context {N : SqlNum} {O : SqlOrder}.

(** The result rows carry the key of their group. *)
Variables (L R : Type).
Variable key : L -> option string.
Variable make_row : option string * list L -> R.
Variable row_key : R -> option string.
Variable metric : R -> num.
Hypothesis row_key_make : forall g, row_key (make_row g) = fst g.

Lemma grouped_keys_perm (lines : list L) :
  Permutation (map row_key (grouped_rows key make_row metric lines))
              (distinct text_eqb (map key lines)).
Proof.
  unfold grouped_rows.
  rewrite (Permutation_map row_key (order_by_desc_perm metric _)).
  rewrite map_map.
  rewrite (map_ext _ fst) by (intros; apply row_key_make).
  now rewrite group_by_keys.
Qed.

Lemma grouped_keys_NoDup (lines : list L) :
  NoDup (map row_key (grouped_rows key make_row metric lines)).
Proof.
  eapply Permutation_NoDup.
  - symmetry. apply grouped_keys_perm.
  - apply distinct_NoDup. apply text_eqb_eq.
Qed.

Lemma grouped_keys_In (lines : list L) (k : option string) :
  In k (map row_key (grouped_rows key make_row metric lines)) <->
  exists l, In l lines /\ key l = k.
Proof.
  assert (Hk : In k (map key lines) <-> exists l, In l lines /\ key l = k).
  { rewrite in_map_iff. split; intros (l & H1 & H2); exists l; tauto. }
  rewrite <- Hk. split; intros H.
  - apply (distinct_In text_eqb text_eqb_eq).
    eapply Permutation_in; [apply grouped_keys_perm | exact H].
  - apply (distinct_In text_eqb text_eqb_eq) in H.
    eapply Permutation_in; [symmetry; apply grouped_keys_perm | exact H].
Qed.

Lemma grouped_row (lines : list L) (r : R) :
  In r (grouped_rows key make_row metric lines) ->
  r = make_row (row_key r, lines_of key (row_key r) lines).
Proof.
  intros Hr. apply (Permutation_in _ (order_by_desc_perm metric _)) in Hr.
  apply in_map_iff in Hr. destruct Hr as ([k g] & <- & Hg).
  apply (in_group_by text_eqb text_eqb_eq) in Hg. simpl in Hg. destruct Hg as [_ ->].
  rewrite row_key_make. reflexivity.
Qed.

Lemma grouped_sorted (lines : list L) :
  StronglySorted (desc metric) (grouped_rows key make_row metric lines).
Proof. apply order_by_desc_sorted. Qed.

End GroupedQuery.

(* ================================================================== *)
(** * The three aggregation queries *)

Section QueryClaims.

Context {N : SqlNum} {O : SqlOrder}.

(** A joined line of the first statement is an order, its customer and one
    of the order's lines. *)
Lemma in_sales_lines (db : Store) (o : Order) (cu : Customer) (od : OrderDetail) :
  In (o, cu, od) (sales_lines db) <->
  In o (Order_table db) /\ In cu (Customer_table db) /\
  In od (OrderDetail_table db) /\
  o_CustomerId o = cu_Id cu /\ o_Id o = od_OrderId od.
Proof.
  unfold sales_lines. rewrite !in_join. simpl.
  rewrite String.eqb_eq, Z.eqb_eq. tauto.
Qed.

(** A joined line of the second statement is a line item, its product and
    the product's category. *)
Lemma in_profit_lines (db : Store) (od : OrderDetail) (p : Product) (c : Category) :
  In (od, p, c) (profit_lines db) <->
  In od (OrderDetail_table db) /\ In p (Product_table db) /\
  In c (Category_table db) /\
  od_ProductId od = p_Id p /\ p_CategoryId p = c_Id c.
Proof.
  unfold profit_lines. rewrite !in_join. simpl.
  rewrite !Z.eqb_eq. tauto.
Qed.

(** A joined line of the third statement is a line item and its product. *)
Lemma in_product_lines (db : Store) (od : OrderDetail) (p : Product) :
  In (od, p) (product_lines db) <->
  In od (OrderDetail_table db) /\ In p (Product_table db) /\
  od_ProductId od = p_Id p.
Proof.
  unfold product_lines. rewrite in_join, Z.eqb_eq. tauto.
Qed.

Lemma load_sales_by_country_ok (w : World) :
  store_answers w ->
  load_sales_by_country w
  = (Return (sales_frame (sales_by_country_sql (store w))), after_call 2 true [] w).
Proof. intros H. unfold load_sales_by_country. now rewrite execute_query_ok. Qed.

Lemma load_profit_by_category_ok (w : World) :
  store_answers w ->
  load_profit_by_category w
  = (Return (profit_frame (profit_by_category_sql (store w))), after_call 2 true [] w).
Proof. intros H. unfold load_profit_by_category. now rewrite execute_query_ok. Qed.

Lemma load_top_selling_products_ok (w : World) :
  store_answers w ->
  load_top_selling_products w
  = (Return (top_frame (top_selling_products_sql (store w))), after_call 2 true [] w).
Proof. intros H. unfold load_top_selling_products. now rewrite execute_query_ok. Qed.








End QueryClaims.

(* ================================================================== *)
(** * Facts about the tables *)

Section PandasFacts.

Context {N : SqlNum} {O : SqlOrder}.

Local Open Scope string_scope.

Lemma cell_eqb_eq (a b : Cell) : cell_eqb a b = true <-> a = b.
Proof.
  destruct a, b; simpl; try (split; congruence).
  - rewrite String.eqb_eq. split; congruence.
  - rewrite Z.eqb_eq. split; congruence.
  - rewrite num_eqb_eq. split; congruence.
Qed.

Lemma cell_eqb_refl (a : Cell) : cell_eqb a a = true.
Proof. now apply cell_eqb_eq. Qed.

Lemma existsb_cell_In (c : Cell) (values : list Cell) :
  existsb (cell_eqb c) values = true <-> In c values.
Proof.
  rewrite existsb_exists. split.
  - intros (x & Hx & E). apply cell_eqb_eq in E. now subst.
  - intros H. exists c. split; [assumption | apply cell_eqb_refl].
Qed.

(** Indexing by the mask of [isin] keeps exactly the rows whose key is
    selected. *)
Lemma boolean_index_isin (df : DataFrame) (i : nat) (selected : list Cell) :
  boolean_index df (isin (column_values i df) selected) = restrict df i selected.
Proof.
  unfold boolean_index, restrict, isin, column_values. f_equal.
  induction (df_rows df) as [|row t IH]; simpl; [reflexivity|].
  destruct (existsb (cell_eqb (nth i row CNull)) selected); simpl;
    now rewrite IH.
Qed.

Lemma filter_isin_column (df : DataFrame) (key : string) (i : nat)
    (selected : list Cell) :
  column_index key (df_columns df) = Some i ->
  filter_isin df key selected = ret (restrict df i selected).
Proof.
  intros H. unfold filter_isin, df_getitem, bind. rewrite H.
  unfold ret. now rewrite boolean_index_isin.
Qed.

Lemma in_restrict (df : DataFrame) (i : nat) (selected : list Cell) (row : list Cell) :
  In row (df_rows (restrict df i selected)) <->
  In row (df_rows df) /\ In (nth i row CNull) selected.
Proof. simpl. now rewrite filter_In, existsb_cell_In. Qed.

Lemma sales_frame_countries (rows : list CountrySales) :
  column_values 0 (sales_frame rows) = map (fun r => text_cell (Country r)) rows.
Proof. unfold column_values. simpl. now rewrite map_map. Qed.

Lemma profit_frame_categories (rows : list CategoryProfit) :
  column_values 0 (profit_frame rows)
  = map (fun r => text_cell (CategoryName r)) rows.
Proof. unfold column_values. simpl. now rewrite map_map. Qed.

Lemma text_cell_inj (a b : option string) : text_cell a = text_cell b -> a = b.
Proof. destruct a, b; simpl; congruence. Qed.

Lemma NoDup_text_cells (R : Type) (f : R -> option string) (rows : list R) :
  NoDup (map f rows) -> NoDup (map (fun r => text_cell (f r)) rows).
Proof.
  induction rows as [|r t IH]; simpl; intros H; [constructor|].
  inversion H as [|? ? Hr Ht]; subst. constructor; [|now apply IH].
  intros Hin. apply Hr. apply in_map_iff in Hin.
  destruct Hin as (r' & E & Hr'). apply text_cell_inj in E.
  rewrite <- E. now apply in_map.
Qed.

End PandasFacts.

(* ================================================================== *)
(** * What the page renders *)

Section PageFacts.

Context {N : SqlNum} {O : SqlOrder}.

Local Open Scope string_scope.

Lemma bind_Return (A B : Type) (m : Py A) (k : A -> Py B) (w w' : World) (a : A) :
  m w = (Return a, w') -> bind m k w = k a w'.
Proof. intros H. unfold bind. now rewrite H. Qed.

Lemma bind_Raise (A B : Type) (m : Py A) (k : A -> Py B) (w w' : World) (e : PyExc) :
  m w = (Raise e, w') -> bind m k w = (Raise e, w').
Proof. intros H. unfold bind. now rewrite H. Qed.

Lemma render_if (b : bool) (e1 e2 : UiEvent) :
  (if b then render e1 else render e2) = render (if b then e1 else e2).
Proof. now destruct b. Qed.

(** Brings the world back to a record of its fields. *)
Ltac tidy :=
  unfold after_call, set_rendered, set_local_conn, set_connections, io_step;
  cbn [store faults io_steps connections next_handle rendered widget_state
       local_conn].

(** Runs the next call of a [bind] chain when it returns by computation. *)
Ltac step := erewrite bind_Return by reflexivity; tidy.

(** When the store answers throughout, the page returns normally and renders
    [page_events] of the three loaded tables. *)
Lemma main_ok (w : World) :
  (forall n, faults w n = None) ->
  exists w',
    main w = (Return tt, w') /\
    rendered w'
    = (rendered w ++
       page_events (sales_frame (sales_by_country_sql (store w)))
                   (profit_frame (profit_by_category_sql (store w)))
                   (top_frame (top_selling_products_sql (store w)))
                   (widget_state w))%list.
Proof.
  destruct w as [db fl io cs nh rd ws lc].
  cbn [faults store widget_state rendered].
  intros Hf. unfold main. step.
  erewrite bind_Return by (apply load_sales_by_country_ok; split; apply Hf). tidy.
  erewrite bind_Return by (apply load_profit_by_category_ok; split; apply Hf). tidy.
  erewrite bind_Return by (apply load_top_selling_products_ok; split; apply Hf). tidy.
  generalize (sales_by_country_sql db) as sales.
  generalize (profit_by_category_sql db) as profit.
  generalize (top_selling_products_sql db) as top.
  intros top profit sales.
  do 8 step.
  erewrite bind_Return
    by (rewrite filter_isin_column with (i := 0%nat) by reflexivity; reflexivity).
  tidy.
  erewrite bind_Return
    by (rewrite filter_isin_column with (i := 0%nat) by reflexivity; reflexivity).
  tidy.
  step. unfold st_plotly_chart, st_warning. rewrite !render_if.
  do 5 step. unfold st_metric, render. tidy.
  unfold page_events, country_chart, category_chart, selection.
  eexists. split; [reflexivity|]. tidy.
  rewrite ?app_nil_r, <- ?app_assoc. reflexivity.
Qed.

Lemma shows_data_country_chart (df : DataFrame) : shows_data (country_chart df) = true.
Proof. unfold country_chart. now destruct (negb (df_is_empty df)). Qed.

Lemma shows_data_category_chart (df : DataFrame) : shows_data (category_chart df) = true.
Proof. unfold category_chart. now destruct (negb (df_is_empty df)). Qed.

(** The data a run of the page shows, in order: the two charts of the
    restricted tables, the top-selling table as loaded, the two counters. *)
Lemma page_events_data (sales profit top : DataFrame)
    (ws : string -> option (list Cell)) :
  filter shows_data (page_events sales profit top ws)
  = [ country_chart
        (restrict sales 0
           (selection ws "country_filter"
              (firstn 5 (unique (dropna (column_values 0 sales))))));
      category_chart
        (restrict profit 0
           (selection ws "category_filter" (unique (column_values 0 profit))));
      st_dataframe_ev top;
      st_metric_ev "🌐 Total Countries" (df_len sales);
      st_metric_ev "📁 Total Product Categories" (df_len profit) ].
Proof.
  unfold page_events. cbn [filter shows_data].
  now rewrite shows_data_country_chart, shows_data_category_chart.
Qed.

Lemma sales_countries_NoDup (db : Store) :
  NoDup (map Country (sales_by_country_sql db)).
Proof. apply grouped_keys_NoDup. reflexivity. Qed.

Lemma profit_categories_NoDup (db : Store) :
  NoDup (map CategoryName (profit_by_category_sql db)).
Proof. apply grouped_keys_NoDup. reflexivity. Qed.

(** GROUP BY leaves no country twice, so [unique] changes nothing. *)
Lemma country_options_eq (db : Store) :
  unique (dropna (column_values 0 (sales_frame (sales_by_country_sql db))))
  = dropna (map (fun r => text_cell (Country r)) (sales_by_country_sql db)).
Proof.
  rewrite sales_frame_countries. apply (distinct_NoDup_id cell_eqb cell_eqb_eq).
  apply NoDup_filter, NoDup_text_cells, sales_countries_NoDup.
Qed.

Lemma category_options_eq (db : Store) :
  unique (column_values 0 (profit_frame (profit_by_category_sql db)))
  = map (fun r => text_cell (CategoryName r)) (profit_by_category_sql db).
Proof.
  rewrite profit_frame_categories. apply (distinct_NoDup_id cell_eqb cell_eqb_eq).
  apply NoDup_text_cells, profit_categories_NoDup.
Qed.

(** A failure of the store that is a store error makes [execute_query]
    return the empty table and render the error. *)
Lemma execute_query_fails (query : Query) (params : option (list Cell))
    (w : World) (e : PyExc) :
  is_Exception (exc_class e) = true ->
  store_fails w e ->
  exists steps opened,
    execute_query query params w
    = (Return DataFrame_empty,
       after_call steps opened [st_error_ev ("Database error: " ++ exc_str e)] w).
Proof.
  intros He [Hc | [Hc Hr]].
  - exists 1%nat, false. now rewrite (execute_query_connect_fails _ _ _ Hc), He.
  - exists 2%nat, true. now rewrite (execute_query_read_fails _ _ _ Hc Hr), He.
Qed.

Lemma store_fails_is_Exception (w : World) (e : PyExc) :
  store_errors_only w -> store_fails w e -> is_Exception (exc_class e) = true.
Proof. intros Hx [Hc | [_ Hr]]; eapply Hx; eassumption. Qed.

(** A selection that holds every key of the table keeps every row. *)
Lemma restrict_all (df : DataFrame) (i : nat) (selected : list Cell) :
  (forall c, In c (column_values i df) -> In c selected) ->
  restrict df i selected = df.
Proof.
  intros H. destruct df as [cols rows]. unfold restrict. cbn [df_columns df_rows].
  f_equal. apply filter_keep_all. intros row Hrow.
  apply existsb_cell_In, H. unfold column_values. cbn [df_rows].
  apply (in_map (fun r => nth i r CNull)). exact Hrow.
Qed.

(** The options of the country filter leave NULL out: selecting all of them
    keeps the rows whose key is not NULL. *)
Lemma restrict_options_dropna (df : DataFrame) (i : nat) :
  df_rows (restrict df i (unique (dropna (column_values i df))))
  = filter (fun row => negb (cell_eqb (nth i row CNull) CNull)) (df_rows df).
Proof.
  unfold restrict. cbn [df_rows]. apply filter_ext_in. intros row Hrow.
  apply eq_true_iff_eq. rewrite existsb_cell_In.
  unfold unique. rewrite (distinct_In cell_eqb cell_eqb_eq).
  unfold dropna. rewrite filter_In. split; [tauto|]. intros Hn. split; [|exact Hn].
  unfold column_values. apply (in_map (fun r => nth i r CNull)). exact Hrow.
Qed.

(** C6, as the code has it.  When the store answers, the page returns
    normally, and for every pair of selected sets the data it shows is, in
    order: the chart (or the warning, when no row is left) of the
    sales-by-country table restricted to the rows whose Country is a selected
    country; the chart (or the warning) of the profit-by-category table
    restricted to the rows whose CategoryName is a selected category; the
    top-selling-products table as loaded, every row of it; and the two
    counters. *)
Theorem filter_binding (w : World) :
  (forall n, faults w n = None) ->
  let sales := sales_frame (sales_by_country_sql (store w)) in
  let profit := profit_frame (profit_by_category_sql (store w)) in
  let top := top_frame (top_selling_products_sql (store w)) in
  let selected_countries :=
    selection (widget_state w) "country_filter"
              (firstn 5 (unique (dropna (column_values 0 sales)))) in
  let selected_categories :=
    selection (widget_state w) "category_filter"
              (unique (column_values 0 profit)) in
  let filtered_country_sales := restrict sales 0 selected_countries in
  let filtered_category_profit := restrict profit 0 selected_categories in
  exists w' evs,
    main w = (Return tt, w') /\
    rendered w' = (rendered w ++ evs)%list /\
    filter shows_data evs
    = [ country_chart filtered_country_sales;
        category_chart filtered_category_profit;
        st_dataframe_ev top;
        st_metric_ev "🌐 Total Countries" (df_len sales);
        st_metric_ev "📁 Total Product Categories" (df_len profit) ] /\
    (forall row, In row (df_rows filtered_country_sales) <->
                 In row (df_rows sales) /\ In (nth 0 row CNull) selected_countries) /\
    (forall row, In row (df_rows filtered_category_profit) <->
                 In row (df_rows profit) /\ In (nth 0 row CNull) selected_categories).
Proof.
  intros Hf sales profit top sc sg fs fp.
  destruct (main_ok w Hf) as (w' & Hmain & Hr).
  exists w'. eexists. split; [exact Hmain|]. split; [exact Hr|].
  split; [apply page_events_data|].
  split; intros row; apply in_restrict.
Qed.

(** C7, as the code has it.  For a table that has the key column: filtering
    it by all the options the country filter offers for it, the distinct
    values of the column with the missing ones dropped, returns the rows
    whose key is not missing, in the table's order, and so the table itself,
    row for row, when no key is missing; filtering it by all the options the
    category filter offers for it, the distinct values of the column, returns
    the table itself. *)
Theorem filter_by_all_offered (df : DataFrame) (key : string) (i : nat) :
  column_index key (df_columns df) = Some i ->
  filter_isin df key (unique (dropna (column_values i df)))
  = ret {| df_columns := df_columns df;
           df_rows := filter (fun row => negb (cell_eqb (nth i row CNull) CNull))
                             (df_rows df) |} /\
  (~ In CNull (column_values i df) ->
   filter_isin df key (unique (dropna (column_values i df))) = ret df) /\
  filter_isin df key (unique (column_values i df)) = ret df.
Proof.
  intros H. rewrite !(@filter_isin_column _ _ _ _ _ H).
  split; [|split].
  - f_equal. unfold restrict. f_equal. exact (restrict_options_dropna df i).
  - intros Hn. f_equal. apply restrict_all. intros c Hc.
    unfold unique. apply (distinct_In cell_eqb cell_eqb_eq).
    unfold dropna. apply filter_In. split; [exact Hc|].
    destruct (cell_eqb c CNull) eqn:E; [|reflexivity].
    apply cell_eqb_eq in E. subst c. contradiction.
  - f_equal. apply restrict_all. intros c Hc.
    unfold unique. now apply (distinct_In cell_eqb cell_eqb_eq).
Qed.

(** C8.  Filtering a table by the empty selection returns normally, with the
    table's columns and no row. *)
Theorem filter_by_nothing (df : DataFrame) (key : string) (i : nat) :
  column_index key (df_columns df) = Some i ->
  filter_isin df key [] = ret {| df_columns := df_columns df; df_rows := [] |} /\
  forall w, exists out,
      filter_isin df key [] w = (Return out, w) /\
      df_len out = 0%Z /\ df_is_empty out = true.
Proof.
  intros H. rewrite (@filter_isin_column _ _ _ _ _ H).
  assert (E : restrict df i [] = {| df_columns := df_columns df; df_rows := [] |}).
  { unfold restrict. f_equal. induction (df_rows df) as [|row t IH]; simpl; auto. }
  rewrite E. split; [reflexivity|].
  intros w. eexists. split; [reflexivity|]. split; [reflexivity|].
  unfold df_is_empty. cbn [df_rows df_columns]. now destruct (df_columns df).
Qed.

(** C9.  On a page load (no widget has a value yet) on a store that answers,
    the country filter is rendered with, as its default, the first 5 of its
    options, and its options are the countries of the rows of
    [load_sales_by_country] in the rows' order (descending TotalSales), NULL
    left out, none twice; the category filter is rendered with all its
    options as default, and they are the category names of the rows of
    [load_profit_by_category], none twice.  These defaults are the selections
    the two charts are drawn from. *)
Theorem default_selections (w : World) :
  (forall n, faults w n = None) ->
  widget_state w "country_filter" = None ->
  widget_state w "category_filter" = None ->
  let sales := sales_by_country_sql (store w) in
  let profit := profit_by_category_sql (store w) in
  let countries := dropna (map (fun r => text_cell (Country r)) sales) in
  let categories := map (fun r => text_cell (CategoryName r)) profit in
  exists w' evs,
    main w = (Return tt, w') /\
    rendered w' = (rendered w ++ evs)%list /\
    In (st_multiselect_ev "🌍 Select Countries" countries (firstn 5 countries)
                          "country_filter") evs /\
    In (st_multiselect_ev "📦 Select Product Categories" categories categories
                          "category_filter") evs /\
    NoDup countries /\ NoDup categories /\
    StronglySorted (desc TotalSales) sales /\
    In (country_chart (restrict (sales_frame sales) 0 (firstn 5 countries))) evs /\
    In (category_chart (restrict (profit_frame profit) 0 categories)) evs.
Proof.
  intros Hf Hc Hg sales profit countries categories.
  destruct (main_ok w Hf) as (w' & Hmain & Hr).
  exists w'. eexists. split; [exact Hmain|]. split; [exact Hr|].
  unfold page_events, selection. rewrite Hc, Hg.
  rewrite country_options_eq, category_options_eq.
  fold sales profit. fold countries categories.
  split; [simpl; tauto|]. split; [simpl; tauto|].
  split; [apply NoDup_filter, NoDup_text_cells, sales_countries_NoDup|].
  split; [apply NoDup_text_cells, profit_categories_NoDup|].
  split; [apply grouped_sorted|].
  split; simpl; tauto.
Qed.

(** Runs the next loader of a [bind] chain when every failure is a store
    error: it returns some table [df] and renders [evs]. *)
Ltac load_any Hx df evs Hevs :=
  match goal with
  | |- context [bind (execute_query ?q ?p) _ ?W] =>
      let steps := fresh "steps" in
      let opened := fresh "opened" in
      let Heq := fresh "Heq" in
      destruct (execute_query_returns q p (w := W) Hx)
        as (df & steps & opened & evs & Heq & Hevs);
      erewrite bind_Return by exact Heq; clear Heq; tidy
  end.

(** C10.  When every failure is a store error and the first statement fails,
    [load_sales_by_country] returns the table without columns and the page
    raises KeyError 'Country' at its country filter; when the first statement
    succeeds and the second fails, the page raises KeyError 'CategoryName' at
    its category filter.  In both cases the page ends by that exception and
    has rendered no chart, warning, table or counter. *)
Theorem main_raises_KeyError (w : World) (e : PyExc) :
  store_errors_only w ->
  (store_fails w e ->
   exists w' evs,
     main w = (Raise {| exc_class := KeyError; exc_str := "'Country'" |}, w') /\
     rendered w' = (rendered w ++ evs)%list /\
     Forall (fun ev => shows_data ev = false) evs) /\
  (store_answers w ->
   store_fails (after_call 2 true [] w) e ->
   exists w' evs,
     main w = (Raise {| exc_class := KeyError; exc_str := "'CategoryName'" |}, w') /\
     rendered w' = (rendered w ++ evs)%list /\
     Forall (fun ev => shows_data ev = false) evs).
Proof.
  intros Hx. split.
  - intros Hf. pose proof (store_fails_is_Exception Hx Hf) as He.
    destruct w as [db fl io cs nh rd ws lc].
    unfold main, load_sales_by_country, load_profit_by_category,
      load_top_selling_products.
    step.
    match goal with
    | |- context [bind (execute_query ?q ?p) _ ?W] =>
        destruct (@execute_query_fails q p W e He Hf) as (steps & opened & Heq);
        erewrite bind_Return by exact Heq; clear Heq; tidy
    end.
    load_any Hx profit evs2 Hevs2.
    load_any Hx top evs3 Hevs3.
    step.
    erewrite bind_Raise by reflexivity.
    eexists. eexists. split; [reflexivity|]. tidy.
    rewrite <- !app_assoc. split; [reflexivity|].
    repeat (apply Forall_app; split); try assumption; repeat constructor.
  - intros Ha Hf. pose proof (store_fails_is_Exception (w := after_call 2 true [] w) Hx Hf) as He.
    destruct w as [db fl io cs nh rd ws lc].
    unfold main, load_sales_by_country, load_profit_by_category,
      load_top_selling_products.
    step.
    erewrite bind_Return by (apply execute_query_ok; exact Ha). tidy.
    match goal with
    | |- context [bind (execute_query ?q ?p) _ ?W] =>
        destruct (@execute_query_fails q p W e He Hf) as (steps & opened & Heq);
        erewrite bind_Return by exact Heq; clear Heq; tidy
    end.
    load_any Hx top evs3 Hevs3.
    cbn [sales_by_country_query bound].
    generalize (sales_by_country_sql db) as sales. intros sales.
    do 4 step.
    erewrite bind_Raise by reflexivity.
    eexists. eexists. split; [reflexivity|]. tidy.
    rewrite <- !app_assoc. split; [reflexivity|].
    repeat (apply Forall_app; split); try assumption; repeat constructor.
Qed.

End PageFacts.

(* ================================================================== *)
(** * The claims on the sample store *)

Section OnSamples.

(** These runs do not depend on ties; they are computed with the stable
    ordering. *)
#[local] Existing Instance StableOrder.

Local Open Scope string_scope.
Local Open Scope Z_scope.

(** The sample store answers. *)
Lemma fresh_world_answers : store_answers (fresh_world tie_store).
Proof. split; reflexivity. Defined.

(** The first loader on the unreachable store: the empty table and one
    error message. *)
Lemma execute_query_catches_failure_witness :
  is_Exception (exc_class unable_to_open) = true /\
  store_fails (unreachable_world tie_store) unable_to_open /\
  exists w',
    load_sales_by_country (unreachable_world tie_store)
    = (Return DataFrame_empty, w') /\
    rendered w' = [st_error_ev "Database error: unable to open database file"].
Proof.
  assert (Hf : store_fails (unreachable_world tie_store) unable_to_open)
    by (left; reflexivity).
  split; [reflexivity|]. split; [exact Hf|].
  destruct (execute_query_catches_failure (e := unable_to_open) eq_refl Hf)
    as (w' & _ & Hr & _ & _ & Hs & _).
  exists w'. split; [exact Hs | exact Hr].
Defined.

(** C6 as stated fails: with both selections empty the two charts give way
    to their warnings, but the top-selling-products table is shown with both
    of its rows. *)
Lemma top_products_shown_unfiltered :
  widget_state (cleared_world tie_store) "country_filter" = Some [] /\
  widget_state (cleared_world tie_store) "category_filter" = Some [] /\
  fst (main (cleared_world tie_store)) = Return tt /\
  filter shows_data (rendered (snd (main (cleared_world tie_store))))
  = [ st_warning_ev "No data available for selected countries";
      st_warning_ev "No data available for selected categories";
      st_dataframe_ev
        {| df_columns := ["ProductName"; "TotalSold"; "TotalRevenue"];
           df_rows := [ [CText "Singaporean Hokkien Fried Mee";
                         CNum (N := IntegerNum) 2; CNum (N := IntegerNum) 10];
                        [CText "Queso Cabrales";
                         CNum (N := IntegerNum) 1; CNum (N := IntegerNum) 10] ] |};
      st_metric_ev "🌐 Total Countries" 2;
      st_metric_ev "📁 Total Product Categories" 2 ].
Proof. repeat split; reflexivity. Qed.

(** The page on the sample store with both filters cleared. *)
Lemma filter_binding_witness :
  (forall n, faults (cleared_world tie_store) n = None) /\
  exists w' evs,
    main (cleared_world tie_store) = (Return tt, w') /\
    rendered w' = evs /\
    In (st_dataframe_ev (top_frame (top_selling_products_sql tie_store))) evs.
Proof.
  split; [reflexivity|].
  destruct (filter_binding (cleared_world tie_store) (fun n => eq_refl))
    as (w' & evs & Hm & Hr & Hd & _).
  exists w', evs. split; [exact Hm|]. split; [exact Hr|].
  apply (proj1 (filter_In shows_data _ evs)). rewrite Hd. simpl. tauto.
Defined.

(** Selecting no country of the sample result leaves the columns only. *)
Lemma filter_by_nothing_witness :
  column_index "Country" (df_columns (sales_frame (sales_by_country_sql tie_store)))
  = Some 0%nat /\
  filter_isin (sales_frame (sales_by_country_sql tie_store)) "Country" []
  = ret {| df_columns := ["Country"; "TotalSales"; "TotalOrders"]; df_rows := [] |}.
Proof.
  split; [reflexivity|].
  exact (proj1 (filter_by_nothing (sales_frame (sales_by_country_sql tie_store))
                                  "Country" eq_refl)).
Defined.

(** The failures of the sample worlds are store errors. *)
Lemma unreachable_world_errors : store_errors_only (unreachable_world tie_store).
Proof. intros n e H. injection H as <-. reflexivity. Defined.

Lemma second_fails_world_errors : store_errors_only (second_fails_world tie_store).
Proof.
  intros n e H. simpl in H. destruct (Nat.eqb n 3); [|discriminate].
  injection H as <-. reflexivity.
Defined.

(** The page on the unreachable store, and on the store whose second
    statement fails. *)
Lemma main_raises_KeyError_witness :
  store_errors_only (unreachable_world tie_store) /\
  store_fails (unreachable_world tie_store) unable_to_open /\
  fst (main (unreachable_world tie_store))
  = Raise {| exc_class := KeyError; exc_str := "'Country'" |} /\
  store_errors_only (second_fails_world tie_store) /\
  store_answers (second_fails_world tie_store) /\
  store_fails (after_call 2 true [] (second_fails_world tie_store)) execution_failed /\
  fst (main (second_fails_world tie_store))
  = Raise {| exc_class := KeyError; exc_str := "'CategoryName'" |}.
Proof.
  assert (H1 : store_fails (unreachable_world tie_store) unable_to_open)
    by (left; reflexivity).
  assert (H2 : store_answers (second_fails_world tie_store))
    by (split; reflexivity).
  assert (H3 : store_fails (after_call 2 true [] (second_fails_world tie_store))
                           execution_failed)
    by (right; split; reflexivity).
  split; [exact unreachable_world_errors|]. split; [exact H1|].
  split.
  { destruct (proj1 (main_raises_KeyError unable_to_open unreachable_world_errors) H1)
      as (w' & evs & Hm & _).
    now rewrite Hm. }
  split; [exact second_fails_world_errors|]. split; [exact H2|].
  split; [exact H3|].
  destruct (proj2 (main_raises_KeyError execution_failed second_fails_world_errors)
                  H2 H3)
    as (w' & evs & Hm & _).
  now rewrite Hm.
Defined.

End OnSamples.

(* ================================================================== *)
(** * The statements and the filters on the stores without ties *)

Section OnEveryOrder.

Local Open Scope string_scope.
Local Open Scope Z_scope.

(** On a first page load of a store that answers, the store answers. *)
Lemma fresh_world_store_answers (db : Store (N := IntegerNum)) :
  store_answers (fresh_world db).
Proof. split; reflexivity. Defined.

(** The results on the stores without ties, whatever the engine does with
    ties. *)
Lemma northwind_sample_sales (O : SqlOrder) :
  sales_by_country_sql (O := O) northwind_sample
  = [ {| Country := Some "Germany"; TotalSales := 70; TotalOrders := 2 |};
      {| Country := None; TotalSales := 60; TotalOrders := 1 |};
      {| Country := Some "USA"; TotalSales := 50; TotalOrders := 1 |};
      {| Country := Some "Brazil"; TotalSales := 40; TotalOrders := 1 |};
      {| Country := Some "France"; TotalSales := 30; TotalOrders := 1 |};
      {| Country := Some "UK"; TotalSales := 20; TotalOrders := 1 |};
      {| Country := Some "Spain"; TotalSales := 10; TotalOrders := 1 |} ].
Proof.
  unfold sales_by_country_sql.
  rewrite (@order_by_desc_determined O); [reflexivity|].
  apply NoDup_checked. reflexivity.
Qed.

Lemma northwind_sample_profit (O : SqlOrder) :
  profit_by_category_sql (O := O) northwind_sample
  = [ {| CategoryName := Some "Dairy Products"; Profit := 130 |};
      {| CategoryName := Some "Grains/Cereals"; Profit := 70 |} ].
Proof.
  unfold profit_by_category_sql.
  rewrite (@order_by_desc_determined O); [reflexivity|].
  apply NoDup_checked. reflexivity.
Qed.









(** C7 as stated fails, whatever the engine does with ties.  The
    sales-by-country table of [northwind_sample] has seven rows; the country
    filter offers six countries for it; filtering the table by all six
    returns six rows: the row of the customer without a country is gone. *)
Lemma all_offered_countries_drop_a_row :
  let sales :=
    {| df_columns := ["Country"; "TotalSales"; "TotalOrders"];
       df_rows := [ [CText "Germany"; CNum 70; CInt 2];
                    [CNull; CNum 60; CInt 1];
                    [CText "USA"; CNum 50; CInt 1];
                    [CText "Brazil"; CNum 40; CInt 1];
                    [CText "France"; CNum 30; CInt 1];
                    [CText "UK"; CNum 20; CInt 1];
                    [CText "Spain"; CNum 10; CInt 1] ] |} in
  let offered :=
    [ CText "Germany"; CText "USA"; CText "Brazil"; CText "France"; CText "UK";
      CText "Spain" ] in
  (forall O : SqlOrder,
     fst (load_sales_by_country (O := O) (fresh_world northwind_sample))
     = Return sales) /\
  unique (dropna (column_values 0 sales)) = offered /\
  filter_isin sales "Country" offered
  = ret {| df_columns := ["Country"; "TotalSales"; "TotalOrders"];
           df_rows := [ [CText "Germany"; CNum 70; CInt 2];
                        [CText "USA"; CNum 50; CInt 1];
                        [CText "Brazil"; CNum 40; CInt 1];
                        [CText "France"; CNum 30; CInt 1];
                        [CText "UK"; CNum 20; CInt 1];
                        [CText "Spain"; CNum 10; CInt 1] ] |}.
Proof.
  split; [|split; reflexivity].
  intros O.
  rewrite (load_sales_by_country_ok (O := O)
             (fresh_world_store_answers northwind_sample)).
  cbn [store fresh_world fst]. rewrite northwind_sample_sales. reflexivity.
Qed.

(** C7 on the two tables of [northwind_sample]: all the offered countries
    keep the six rows with a country, all the offered categories keep the
    table. *)
Lemma filter_by_all_offered_witness :
  let sales :=
    {| df_columns := ["Country"; "TotalSales"; "TotalOrders"];
       df_rows := [ [CText "Germany"; CNum 70; CInt 2];
                    [CNull; CNum 60; CInt 1];
                    [CText "USA"; CNum 50; CInt 1];
                    [CText "Brazil"; CNum 40; CInt 1];
                    [CText "France"; CNum 30; CInt 1];
                    [CText "UK"; CNum 20; CInt 1];
                    [CText "Spain"; CNum 10; CInt 1] ] |} in
  let profit :=
    {| df_columns := ["CategoryName"; "Profit"];
       df_rows := [ [CText "Dairy Products"; CNum 130];
                    [CText "Grains/Cereals"; CNum 70] ] |} in
  column_index "Country" (df_columns sales) = Some 0%nat /\
  filter_isin sales "Country" (unique (dropna (column_values 0 sales)))
  = ret {| df_columns := ["Country"; "TotalSales"; "TotalOrders"];
           df_rows := [ [CText "Germany"; CNum 70; CInt 2];
                        [CText "USA"; CNum 50; CInt 1];
                        [CText "Brazil"; CNum 40; CInt 1];
                        [CText "France"; CNum 30; CInt 1];
                        [CText "UK"; CNum 20; CInt 1];
                        [CText "Spain"; CNum 10; CInt 1] ] |} /\
  column_index "CategoryName" (df_columns profit) = Some 0%nat /\
  filter_isin profit "CategoryName" (unique (column_values 0 profit)) = ret profit.
Proof.
  intros sales profit.
  split; [reflexivity|].
  split; [exact (proj1 (filter_by_all_offered sales "Country" eq_refl))|].
  split; [reflexivity|].
  exact (proj2 (proj2 (filter_by_all_offered profit "CategoryName" eq_refl))).
Defined.

(** C9 on [northwind_sample], whatever the engine does with ties: of the six
    countries offered, in descending order of their sales, the first five
    are preselected, the row without a country being passed over; both
    categories are offered and preselected. *)
Lemma default_selections_witness :
  (forall n, faults (fresh_world northwind_sample) n = None) /\
  widget_state (fresh_world northwind_sample) "country_filter" = None /\
  widget_state (fresh_world northwind_sample) "category_filter" = None /\
  forall O : SqlOrder,
  exists w' evs,
    main (O := O) (fresh_world northwind_sample) = (Return tt, w') /\
    rendered w' = evs /\
    In (st_multiselect_ev "🌍 Select Countries"
          [ CText "Germany"; CText "USA"; CText "Brazil"; CText "France";
            CText "UK"; CText "Spain" ]
          [ CText "Germany"; CText "USA"; CText "Brazil"; CText "France";
            CText "UK" ]
          "country_filter") evs /\
    In (st_multiselect_ev "📦 Select Product Categories"
          [CText "Dairy Products"; CText "Grains/Cereals"]
          [CText "Dairy Products"; CText "Grains/Cereals"]
          "category_filter") evs.
Proof.
  split; [reflexivity|]. split; [reflexivity|]. split; [reflexivity|].
  intros O.
  destruct (default_selections (O := O) (fresh_world northwind_sample)
              (fun n => eq_refl) eq_refl eq_refl)
    as (w' & evs & Hm & Hr & Hc & Hg & _).
  cbn [store fresh_world] in Hc, Hg.
  rewrite northwind_sample_sales in Hc. rewrite northwind_sample_profit in Hg.
  exists w', evs. repeat split; assumption.
Defined.

End OnEveryOrder.

(* ================================================================== *)
(** * More about the query executor *)

Section ExecutorMore.

Context {N : SqlNum} {O : SqlOrder}.

Local Open Scope string_scope.

(** Whatever happens, a call of [execute_query] leaves the world it found
    after some I/O steps, with the handle it opened closed again and at most
    error messages rendered. *)
Lemma execute_query_world (query : Query) (params : option (list Cell)) (w : World) :
  exists steps opened evs,
    snd (execute_query query params w) = after_call steps opened evs w /\
    Forall (fun ev => exists body, ev = st_error_ev body) evs.
Proof.
  destruct (faults w (io_steps w)) as [e|] eqn:Hc.
  - rewrite (execute_query_connect_fails _ _ _ Hc).
    destruct (is_Exception (exc_class e)); repeat eexists; repeat constructor.
    eexists. reflexivity.
  - destruct (faults w (S (io_steps w))) as [e|] eqn:Hr.
    + rewrite (execute_query_read_fails _ _ _ Hc Hr).
      destruct (is_Exception (exc_class e)); repeat eexists; repeat constructor.
      eexists. reflexivity.
    + rewrite (execute_query_ok query params (conj Hc Hr)).
      repeat eexists. constructor.
Qed.

(** X1.  On its normal path [execute_query] returns the table that
    [read_sql_query] built for the statement and its bound parameters (an
    empty tuple binds nothing, like None), renders no message, has taken two
    I/O steps and one handle, and leaves the store, the widget values and the
    caller's frame as they were. *)
Theorem execute_query_normal_path
    (query : Query) (params : option (list Cell)) (w : World) :
  store_answers w ->
  exists w',
    execute_query query params w = (Return (query (bound params) (store w)), w') /\
    execute_query query (Some []) w = execute_query query None w /\
    rendered w' = rendered w /\
    io_steps w' = (2 + io_steps w)%nat /\
    next_handle w' = S (next_handle w) /\
    store w' = store w /\
    widget_state w' = widget_state w /\
    local_conn w' = local_conn w.
Proof.
  intros H. rewrite !(execute_query_ok query _ H).
  eexists. split; [reflexivity|]. cbn [after_call rendered io_steps next_handle
    store widget_state local_conn]. rewrite app_nil_r. repeat split.
Qed.

(** X2.  A failure whose class does not derive from Exception is not caught:
    [execute_query] raises it unchanged and renders no message; the finally
    block has still run, so no connection is left open. *)
Theorem execute_query_propagates
    (query : Query) (params : option (list Cell)) (w : World) (e : PyExc) :
  is_Exception (exc_class e) = false ->
  store_fails w e ->
  exists w',
    execute_query query params w = (Raise e, w') /\
    rendered w' = rendered w /\
    (forall h, In h (connections w') -> In h (connections w)).
Proof.
  intros He [Hc | [Hc Hr]].
  - rewrite (execute_query_connect_fails _ _ _ Hc), He.
    eexists. split; [reflexivity|]. cbn [after_call rendered connections].
    rewrite app_nil_r. split; auto.
  - rewrite (execute_query_read_fails _ _ _ Hc Hr), He.
    eexists. split; [reflexivity|]. cbn [after_call rendered connections].
    rewrite app_nil_r. split; [reflexivity|].
    intros h Hh. apply in_without in Hh. destruct Hh as [[<- | Hh] Hne];
      [congruence | assumption].
Qed.

End ExecutorMore.

(* ================================================================== *)
(** * Rules for the whole page *)

Section FrameRules.

Context {N : SqlNum} {O : SqlOrder}.

Variable R : World -> World -> Prop.
Hypothesis R_refl : forall w, R w w.
Hypothesis R_trans : forall w1 w2 w3, R w1 w2 -> R w2 w3 -> R w1 w3.

Lemma keeps_ret (A : Type) (a : A) : keeps R (ret a).
Proof. intros w. apply R_refl. Qed.

Lemma keeps_raise (A : Type) (e : PyExc) : keeps R (raise (A := A) e).
Proof. intros w. apply R_refl. Qed.

(** The rule of sequence: the continuation may rely on what the first
    computation returns. *)
Lemma keeps_bind_yields (A B : Type) (m : Py A) (k : A -> Py B) (P : A -> Prop) :
  keeps R m -> yields m P -> (forall a, P a -> keeps R (k a)) ->
  keeps R (bind m k).
Proof.
  intros Hm HP Hk w. unfold bind.
  pose proof (Hm w) as H1. destruct (m w) as [[a|e] w1] eqn:E; simpl in *.
  - eapply R_trans; [exact H1|]. apply Hk. eapply HP. exact E.
  - exact H1.
Qed.

Lemma keeps_bind (A B : Type) (m : Py A) (k : A -> Py B) :
  keeps R m -> (forall a, keeps R (k a)) -> keeps R (bind m k).
Proof.
  intros Hm Hk. apply keeps_bind_yields with (P := fun _ => True); auto.
  intros w a w' _. exact I.
Qed.

Lemma keeps_if (A : Type) (b : bool) (m1 m2 : Py A) :
  keeps R m1 -> keeps R m2 -> keeps R (if b then m1 else m2).
Proof. now destruct b. Qed.

Lemma keeps_df_getitem (df : DataFrame) (name : string) :
  keeps R (df_getitem df name).
Proof.
  unfold df_getitem. destruct (column_index name (df_columns df)).
  - apply keeps_ret.
  - apply keeps_raise.
Qed.

Lemma keeps_filter_isin (df : DataFrame) (key : string) (selected : list Cell) :
  keeps R (filter_isin df key selected).
Proof.
  unfold filter_isin. apply keeps_bind; [apply keeps_df_getitem|].
  intros col. apply keeps_ret.
Qed.

End FrameRules.

Section FrameFacts.

Context {N : SqlNum} {O : SqlOrder}.

Local Open Scope string_scope.

(** [df[name]] returns the column of that name. *)
Lemma yields_df_getitem (df : DataFrame) (name : string) :
  yields (df_getitem df name)
         (fun col => exists i, column_index name (df_columns df) = Some i /\
                               col = column_values i df).
Proof.
  intros w a w' H. unfold df_getitem in H.
  destruct (column_index name (df_columns df)) as [i|]; [|discriminate].
  exists i. split; [reflexivity|]. unfold ret in H. congruence.
Qed.

Lemma same_connections_refl (w : World) : same_connections w w.
Proof. intros H. split; [exact H | reflexivity]. Qed.

Lemma same_connections_trans (w1 w2 w3 : World) :
  same_connections w1 w2 -> same_connections w2 w3 -> same_connections w1 w3.
Proof.
  intros H12 H23 H1. destruct (H12 H1) as [H2 E2]. destruct (H23 H2) as [H3 E3].
  split; [exact H3 | congruence].
Qed.

Lemma renders_only_refl (P : UiEvent -> Prop) (w : World) : renders_only P w w.
Proof. exists []. split; [now rewrite app_nil_r | constructor]. Qed.

Lemma renders_only_trans (P : UiEvent -> Prop) (w1 w2 w3 : World) :
  renders_only P w1 w2 -> renders_only P w2 w3 -> renders_only P w1 w3.
Proof.
  intros (e1 & E1 & F1) (e2 & E2 & F2). exists (e1 ++ e2)%list. split.
  - now rewrite E2, E1, app_assoc.
  - apply Forall_app. now split.
Qed.

Lemma same_connections_render (ev : UiEvent) : keeps same_connections (render ev).
Proof. intros w H. split; [exact H | reflexivity]. Qed.

Lemma same_connections_multiselect (label : string) (options default : list Cell)
    (key : string) :
  keeps same_connections (st_multiselect label options default key).
Proof. intros w H. split; [exact H | reflexivity]. Qed.

Lemma same_connections_execute_query (query : Query) (params : option (list Cell)) :
  keeps same_connections (execute_query query params).
Proof.
  intros w Hf.
  destruct (execute_query_world query params w) as (steps & opened & evs & -> & _).
  unfold after_call, handles_fresh. cbn [connections next_handle].
  destruct opened.
  - assert (Hn : ~ In (next_handle w) (connections w)).
    { intros Hin. apply Hf in Hin. lia. }
    rewrite without_fresh by exact Hn. split; [|reflexivity].
    intros h Hh. apply Hf in Hh. lia.
  - split; [exact Hf | reflexivity].
Qed.

Lemma renders_only_render (P : UiEvent -> Prop) (ev : UiEvent) :
  P ev -> keeps (renders_only P) (render ev).
Proof. intros H w. exists [ev]. split; [reflexivity | now constructor]. Qed.

Lemma renders_only_multiselect (P : UiEvent -> Prop) (label : string)
    (options default : list Cell) (key : string) :
  P (st_multiselect_ev label options default key) ->
  keeps (renders_only P) (st_multiselect label options default key).
Proof.
  intros H w. exists [st_multiselect_ev label options default key].
  split; [reflexivity | now constructor].
Qed.

Lemma renders_only_execute_query (P : UiEvent -> Prop) (query : Query)
    (params : option (list Cell)) :
  (forall body, P (st_error_ev body)) ->
  keeps (renders_only P) (execute_query query params).
Proof.
  intros HP w.
  destruct (execute_query_world query params w) as (steps & opened & evs & -> & He).
  exists evs. split; [reflexivity|].
  eapply Forall_impl; [|exact He]. intros ev (body & ->). apply HP.
Qed.

Lemma incl_firstn (A : Type) (n : nat) (l : list A) : incl (firstn n l) l.
Proof. intros x. apply in_firstn. Qed.

(** Unfolds [main] down to its calls. *)
Ltac page_open :=
  unfold main, load_sales_by_country, load_profit_by_category,
    load_top_selling_products, st_markdown, st_subheader, st_plotly_chart,
    st_warning, st_dataframe, st_metric.

(** Takes a chain of calls apart, forgetting what each call returns. *)
Ltac page_calls refl trans :=
  repeat first
    [ apply (@keeps_filter_isin _ _ refl trans)
    | apply (@keeps_bind _ _ trans); [|intros ?]
    | apply keeps_if
    | apply (@keeps_df_getitem _ _ refl) ].

Lemma main_same_connections : keeps same_connections main.
Proof.
  page_open. page_calls same_connections_refl same_connections_trans;
    first [ apply same_connections_render
          | apply same_connections_multiselect
          | apply same_connections_execute_query ].
Qed.

(** X3.  The page leaves the open connections as it found them, whatever the
    store does at any of its steps and however the page ends (normally, by a
    KeyError of its filters, or by an exception that is not caught): each of
    the three statements closes the connection it opened before the next one
    runs. *)
Theorem main_leaves_connections (w : World) :
  handles_fresh w ->
  connections (snd (main w)) = connections w /\
  handles_fresh (snd (main w)).
Proof.
  intros H. destruct (main_same_connections H) as [H1 H2]. now split.
Qed.

(** X4.  In every run of the page, whatever the store does and whatever the
    tables hold, each multiselect is rendered with a default whose values are
    all among its options (the first five options, or all of them), and
    nothing rendered before is lost. *)
Theorem main_offers_its_defaults (w : World) :
  exists evs,
    rendered (snd (main w)) = (rendered w ++ evs)%list /\
    Forall default_offered evs.
Proof.
  revert w. change (keeps (renders_only default_offered) main).
  pose proof (renders_only_refl default_offered) as refl.
  pose proof (@renders_only_trans default_offered) as trans.
  page_open.
  apply (@keeps_bind _ _ trans); [apply renders_only_render; exact I | intros _].
  do 3 (apply (@keeps_bind _ _ trans);
        [apply renders_only_execute_query; intros; exact I | intros ?]).
  apply (@keeps_bind _ _ trans); [apply renders_only_render; exact I | intros _].
  eapply (@keeps_bind_yields _ _ trans);
    [apply (@keeps_df_getitem _ _ refl) | apply yields_df_getitem |].
  intros options (i & Hi & ->).
  eapply (@keeps_bind_yields _ _ trans);
    [apply (@keeps_df_getitem _ _ refl) | apply yields_df_getitem |].
  intros default (j & Hj & ->). rewrite Hi in Hj. injection Hj as <-.
  apply (@keeps_bind _ _ trans);
    [apply renders_only_multiselect; apply incl_firstn | intros ?].
  eapply (@keeps_bind_yields _ _ trans);
    [apply (@keeps_df_getitem _ _ refl) | apply yields_df_getitem |].
  intros options' (i' & Hi' & ->).
  eapply (@keeps_bind_yields _ _ trans);
    [apply (@keeps_df_getitem _ _ refl) | apply yields_df_getitem |].
  intros default' (j' & Hj' & ->). rewrite Hi' in Hj'. injection Hj' as <-.
  apply (@keeps_bind _ _ trans);
    [apply renders_only_multiselect; apply incl_refl | intros ?].
  page_calls refl trans; apply renders_only_render; exact I.
Qed.

End FrameFacts.

(* ================================================================== *)
(** * More about a run of the page *)

Section PageMore.

Context {N : SqlNum} {O : SqlOrder}.

Local Open Scope string_scope.

Ltac tidy_world :=
  unfold after_call, set_rendered, set_local_conn, set_connections, io_step;
  cbn [store faults io_steps connections next_handle rendered widget_state
       local_conn].

Ltac run := erewrite bind_Return by reflexivity; tidy_world.

(** X5.  On a store that answers, every run of the page, the first load as
    well as a rerun under any widget values, returns normally after exactly
    three connection attempts and three statement executions: the tables are
    loaded anew on each run. *)
Theorem main_queries_on_every_run (w : World) :
  (forall n, faults w n = None) ->
  fst (main w) = Return tt /\
  io_steps (snd (main w)) = (6 + io_steps w)%nat /\
  next_handle (snd (main w)) = (3 + next_handle w)%nat.
Proof.
  destruct w as [db fl io cs nh rd ws lc]. cbn [faults io_steps next_handle].
  intros Hf. unfold main. run.
  erewrite bind_Return by (apply load_sales_by_country_ok; split; apply Hf).
  tidy_world.
  erewrite bind_Return by (apply load_profit_by_category_ok; split; apply Hf).
  tidy_world.
  erewrite bind_Return by (apply load_top_selling_products_ok; split; apply Hf).
  tidy_world.
  generalize (sales_by_country_sql db) as sales.
  generalize (profit_by_category_sql db) as profit.
  generalize (top_selling_products_sql db) as top.
  intros top profit sales.
  do 8 run.
  erewrite bind_Return
    by (rewrite filter_isin_column with (i := 0%nat) by reflexivity; reflexivity).
  tidy_world.
  erewrite bind_Return
    by (rewrite filter_isin_column with (i := 0%nat) by reflexivity; reflexivity).
  tidy_world.
  run. unfold st_plotly_chart, st_warning. rewrite !render_if.
  do 5 run. unfold st_metric, render. tidy_world.
  cbn [fst snd io_steps next_handle]. repeat split.
Qed.

Lemma join_nil_r (A B : Type) (l : list A) (on : A -> B -> bool) :
  join l [] on = [].
Proof. unfold join. induction l as [|a t IH]; simpl; auto. Qed.

(** Without line items every statement has no row. *)
Lemma no_line_items (db : Store) :
  OrderDetail_table db = [] ->
  sales_by_country_sql db = [] /\
  profit_by_category_sql db = [] /\
  top_selling_products_sql db = [].
Proof.
  intros H.
  unfold sales_by_country_sql, profit_by_category_sql, top_selling_products_sql,
    sales_lines, profit_lines, product_lines.
  rewrite H, join_nil_r. cbn [join flat_map map group_by distinct].
  rewrite !order_by_desc_nil. repeat split.
Qed.

(** X6.  On a store that answers but holds no line item, the three tables
    have their columns and no row, and the page returns normally: both
    filters offer nothing and preselect nothing, both charts give way to
    their warnings whatever the widgets hold, the product table is empty and
    both counters show 0. *)
Theorem main_on_store_without_line_items (w : World) :
  (forall n, faults w n = None) ->
  OrderDetail_table (store w) = [] ->
  exists w' evs,
    main w = (Return tt, w') /\
    rendered w' = (rendered w ++ evs)%list /\
    In (st_multiselect_ev "🌍 Select Countries" [] [] "country_filter") evs /\
    In (st_multiselect_ev "📦 Select Product Categories" [] [] "category_filter")
       evs /\
    filter shows_data evs
    = [ st_warning_ev "No data available for selected countries";
        st_warning_ev "No data available for selected categories";
        st_dataframe_ev
          {| df_columns := ["ProductName"; "TotalSold"; "TotalRevenue"];
             df_rows := [] |};
        st_metric_ev "🌐 Total Countries" 0;
        st_metric_ev "📁 Total Product Categories" 0 ].
Proof.
  intros Hf He. destruct (main_ok w Hf) as (w' & Hmain & Hr).
  destruct (no_line_items _ He) as (-> & -> & ->) in Hr.
  exists w'. eexists. split; [exact Hmain|]. split; [exact Hr|].
  split; [simpl; tauto|]. split; [simpl; tauto|]. reflexivity.
Qed.

End PageMore.

(* ================================================================== *)
(** * More about the result tables *)

Section TablesMore.

Context {N : SqlNum} {O : SqlOrder}.

Local Open Scope string_scope.



(** X8.  Every row of the sales-by-country result counts at least one order,
    and never more orders than the country has order lines or than the Order
    table has rows. *)
Theorem total_orders_bounds (db : Store) (r : CountrySales) :
  In r (sales_by_country_sql db) ->
  (1 <= TotalOrders r)%Z /\
  (TotalOrders r <= Z.of_nat (List.length (country_lines db (Country r))))%Z /\
  (TotalOrders r <= Z.of_nat (List.length (Order_table db)))%Z.
Proof.
  intros Hr.
  assert (Hk : exists l, In l (sales_lines db) /\ line_country l = Country r).
  { pose proof (in_map Country _ _ Hr) as Hk.
    apply grouped_keys_In in Hk; [exact Hk | reflexivity]. }
  apply grouped_row with (row_key := Country) in Hr; [|reflexivity].
  rewrite Hr. cbn [TotalOrders Country fst snd].
  fold (country_lines db (Country r)).
  unfold count_distinct.
  set (ids := map line_order (country_lines db (Country r))).
  assert (Hnd : NoDup (distinct Z.eqb ids)) by apply distinct_NoDup, Z.eqb_eq.
  split; [|split].
  - destruct Hk as (l & Hl & Hc).
    assert (Hin : In (line_order l) (distinct Z.eqb ids)).
    { apply (distinct_In Z.eqb Z.eqb_eq). unfold ids. apply in_map.
      unfold country_lines, lines_of. apply filter_In. split; [exact Hl|].
      apply text_eqb_eq. now symmetry. }
    destruct (distinct Z.eqb ids); [contradiction | cbn [List.length]; lia].
  - apply inj_le.
    rewrite <- (length_map line_order (country_lines db (Country r))).
    apply NoDup_incl_length; [exact Hnd|].
    intros x Hx. exact (proj1 (distinct_In Z.eqb Z.eqb_eq _ _) Hx).
  - apply inj_le. rewrite <- (length_map o_Id (Order_table db)).
    apply NoDup_incl_length; [exact Hnd|].
    intros x Hx. apply (proj1 (distinct_In Z.eqb Z.eqb_eq _ _)) in Hx.
    unfold ids in Hx. apply in_map_iff in Hx.
    destruct Hx as ([[o cu] od] & <- & Hl).
    unfold country_lines, lines_of in Hl. apply filter_In in Hl.
    destruct Hl as [Hl _]. apply in_sales_lines in Hl.
    apply (in_map o_Id _ o). tauto.
Qed.










End TablesMore.

(* ================================================================== *)
(** * Keys and counting *)

Section KeysMore.

Context {N : SqlNum} {O : SqlOrder}.

(** X12.  When order identifiers and customer identifiers are unique in
    their tables, no order is counted for two countries: an order that
    occurs among the order lines of one country occurs among those of no
    other. *)
Theorem orders_counted_for_one_country
    (db : Store) (c1 c2 : option string) (o : Z) :
  NoDup (map o_Id (Order_table db)) ->
  NoDup (map cu_Id (Customer_table db)) ->
  In o (map line_order (country_lines db c1)) ->
  In o (map line_order (country_lines db c2)) ->
  c1 = c2.
Proof.
  intros Ho Hc H1 H2.
  apply in_map_iff in H1. destruct H1 as ([[o1 cu1] od1] & E1 & L1).
  apply in_map_iff in H2. destruct H2 as ([[o2 cu2] od2] & E2 & L2).
  unfold country_lines, lines_of in L1, L2.
  apply filter_In in L1. destruct L1 as [L1 K1].
  apply filter_In in L2. destruct L2 as [L2 K2].
  apply text_eqb_eq in K1. apply text_eqb_eq in K2.
  apply in_sales_lines in L1. destruct L1 as (Io1 & Ic1 & _ & J1 & _).
  apply in_sales_lines in L2. destruct L2 as (Io2 & Ic2 & _ & J2 & _).
  unfold line_order, line_country in *. cbn [fst snd] in *.
  assert (o1 = o2) as <- by (apply (NoDup_map_eq o_Id _ _ _ Ho Io1 Io2); congruence).
  assert (cu1 = cu2) as <- by (apply (NoDup_map_eq cu_Id _ _ _ Hc Ic1 Ic2); congruence).
  congruence.
Qed.

End KeysMore.

(* ================================================================== *)
(** * The further properties on the samples *)

Section MoreOnSamples.

(** These runs do not depend on ties; they are computed with the stable
    ordering. *)
#[local] Existing Instance StableOrder.

Local Open Scope string_scope.
Local Open Scope Z_scope.

(** The first statement on the sample store, on its normal path. *)
Lemma execute_query_normal_path_witness :
  store_answers (fresh_world tie_store) /\
  exists w',
    execute_query sales_by_country_query None (fresh_world tie_store)
    = (Return (sales_frame (sales_by_country_sql tie_store)), w') /\
    rendered w' = [].
Proof.
  split; [exact fresh_world_answers|].
  destruct (execute_query_normal_path sales_by_country_query None
              fresh_world_answers)
    as (w' & H1 & _ & H2 & _).
  exists w'. split; [exact H1 | exact H2].
Defined.

(** The first statement interrupted from the keyboard. *)
Lemma execute_query_propagates_witness :
  is_Exception (exc_class interrupt) = false /\
  store_fails (interrupted_world tie_store) interrupt /\
  exists w',
    execute_query sales_by_country_query None (interrupted_world tie_store)
    = (Raise interrupt, w') /\
    rendered w' = [].
Proof.
  assert (Hf : store_fails (interrupted_world tie_store) interrupt)
    by (right; split; reflexivity).
  split; [reflexivity|]. split; [exact Hf|].
  destruct (execute_query_propagates sales_by_country_query None
              (e := interrupt) eq_refl Hf)
    as (w' & H1 & H2 & _).
  exists w'. split; [exact H1 | exact H2].
Defined.

Lemma rerun_world_fresh : handles_fresh (rerun_world tie_store).
Proof. intros h [<- | []]. simpl. lia. Defined.

(** A rerun beside an open connection of another session. *)
Lemma main_leaves_connections_witness :
  handles_fresh (rerun_world tie_store) /\
  connections (snd (main (rerun_world tie_store))) = [0%nat].
Proof.
  split; [exact rerun_world_fresh|].
  exact (proj1 (main_leaves_connections rerun_world_fresh)).
Defined.

(** The same rerun takes I/O steps 6 to 11 and handles 4 to 6. *)
Lemma main_queries_on_every_run_witness :
  (forall n, faults (rerun_world tie_store) n = None) /\
  io_steps (snd (main (rerun_world tie_store))) = 12%nat /\
  next_handle (snd (main (rerun_world tie_store))) = 7%nat.
Proof.
  split; [reflexivity|].
  destruct (main_queries_on_every_run (rerun_world tie_store) (fun n => eq_refl))
    as (_ & H1 & H2).
  split; [exact H1 | exact H2].
Defined.

(** The first page load before any order was entered. *)
Lemma main_on_store_without_line_items_witness :
  (forall n, faults (fresh_world no_orders_store) n = None) /\
  OrderDetail_table (store (fresh_world no_orders_store)) = [] /\
  fst (main (fresh_world no_orders_store)) = Return tt.
Proof.
  split; [reflexivity|]. split; [reflexivity|].
  destruct (main_on_store_without_line_items (fresh_world no_orders_store)
              (fun n => eq_refl) eq_refl)
    as (w' & evs & H & _).
  now rewrite H.
Defined.

(** The row of Mexico on the sample store counts one order. *)
Lemma total_orders_bounds_witness :
  In {| Country := Some "Mexico"; TotalSales := 10; TotalOrders := 1 |}
     (sales_by_country_sql tie_store) /\
  1 <= 1 <= Z.of_nat (List.length (Order_table tie_store)).
Proof.
  assert (H : In {| Country := Some "Mexico"; TotalSales := 10; TotalOrders := 1 |}
                 (sales_by_country_sql tie_store)) by (left; reflexivity).
  split; [exact H|].
  destruct (total_orders_bounds tie_store _ H) as (H1 & _ & H3).
  split; [exact H1 | exact H3].
Defined.

(** Order 1 of the sample store is an order of Mexico only. *)
Lemma orders_counted_for_one_country_witness :
  NoDup (map o_Id (Order_table tie_store)) /\
  NoDup (map cu_Id (Customer_table tie_store)) /\
  In 1 (map line_order (country_lines tie_store (Some "Mexico"))) /\
  Some "Mexico" = Some "Mexico".
Proof.
  assert (Ho : NoDup (map o_Id (Order_table tie_store))).
  { simpl. repeat constructor; simpl; intuition discriminate. }
  assert (Hc : NoDup (map cu_Id (Customer_table tie_store))).
  { simpl. repeat constructor; simpl; intuition discriminate. }
  assert (H1 : In 1 (map line_order (country_lines tie_store (Some "Mexico"))))
    by (left; reflexivity).
  split; [exact Ho|]. split; [exact Hc|]. split; [exact H1|].
  exact (orders_counted_for_one_country tie_store _ _ 1 Ho Hc H1 H1).
Defined.

(** With a customer without country the counter shows 2 and the country
    filter offers Spain alone. *)
Example total_countries_on_no_country_store :
  df_len (sales_frame (sales_by_country_sql no_country_store)) = 2 /\
  unique (dropna (column_values 0 (sales_frame (sales_by_country_sql no_country_store))))
  = [CText "Spain"].
Proof. split; reflexivity. Qed.

End MoreOnSamples.
